(** * node-tracker-frontend: location acquisition and accuracy assessment

    A shallow embedding of the geolocation part of [src/api.js] (the
    [geolocationAPI] object) and of the auto-tracking handlers of the
    [MapView] component, with the properties of the design document checked
    against them.

    Conventions of the embedding.
    - A JavaScript number is a rational ([Q]): every finite double is one and
      the comparisons [<] and [>] of the source coincide with the order of
      [Q] on them.  The sums, products and quotients of the source are
      rounded to the nearest double after each operation ([JS.fadd],
      [JS.fmul], [JS.fdiv] over [JS.round64]), as binary64 arithmetic does
      within its finite range; a result beyond the largest double is
      outside the model.  The heading of a fix, which the platform reports
      as [NaN] for a device at rest, is a number or [NaN].  Counters,
      identifiers, error codes and times in milliseconds are integers ([Z]).
    - A field that is a number or [null] is an [option]; [null] is [None].
    - Ambient browser state ([window.location], [navigator.geolocation]) is an
      explicit [World] threaded by a small state-and-exception monad.
    - A promise is represented by the state it settles in.
    - [console.log] and [console.error] calls are not represented. *)

From Stdlib Require Import ZArith QArith Qround Qabs String Ascii List Bool Lia Lqa DecimalString.
From Stdlib Require SpecFloat.
From stdpp Require Import base gmap.
Import ListNotations.

Local Open Scope string_scope.
Local Open Scope Z_scope.

(* ===================================================================== *)
(** ** JavaScript values *)

Module JS.

(** Numbers. *)
Definition number := Q.
Bind Scope Q_scope with number.

(** [x < y] and [x > y] of the source. *)
Definition ltb (x y : number) : bool :=
  match Qcompare x y with Lt => true | _ => false end.
Definition gtb (x y : number) : bool := ltb y x.
Arguments ltb (x y)%_Q.
Arguments gtb (x y)%_Q.

(** Binary64 arithmetic.  [pow2 e] is the power of two of exponent [e]. *)
Definition pow2 (e : Z) : Q :=
  if 0 <=? e then inject_Z (2 ^ e) else 1 # Z.to_pos (2 ^ (- e)).

(** The double nearest to a rational, the one with the even significand
    on a tie: with [e] the exponent of [x] (2^e <= |x| < 2^(e+1)), the
    doubles around [x] are the multiples of 2^(e - 52), and of 2^(-1074)
    below the smallest normal number 2^(-1022).  Binary64 turns what lies
    beyond its largest number into an infinity; the model stops short of
    that. *)
Definition round64 (x : Q) : number :=
  let x := Qred x in
  match Qnum x with
  | 0 => 0%Q
  | _ =>
      let n := Z.abs (Qnum x) in
      let d := Zpos (Qden x) in
      let e0 := Z.log2 n - Z.log2 d in
      let below := if 0 <=? e0 then n <? d * 2 ^ e0 else n * 2 ^ (- e0) <? d in
      let e := if below then e0 - 1 else e0 in
      let q := Z.max e (-1022) - 52 in
      let m := (Qabs x * pow2 (- q))%Q in
      let k := Qfloor m in
      let up :=
        match Qcompare (m - inject_Z k) (1 # 2) with
        | Gt => true
        | Eq => Z.odd k
        | Lt => false
        end in
      let k := if up then k + 1 else k in
      (inject_Z (Z.sgn (Qnum x) * k) * pow2 q)%Q
  end.

(** The number a decimal literal of the source denotes. *)
Definition literal (x : Q) : number := round64 x.

(** The rationals that are doubles. *)
Definition is_double (x : number) : Prop := (round64 x == x)%Q.

(** [x + y], [x * y] and [x / y] of the source. *)
Definition fadd (x y : number) : number := round64 (x + y).
Definition fmul (x y : number) : number := round64 (x * y).
Definition fdiv (x y : number) : number := round64 (x / y).
Arguments fadd (x y)%_Q.
Arguments fmul (x y)%_Q.
Arguments fdiv (x y)%_Q.

(** A number that may also be [NaN]. *)
Inductive number_or_NaN :=
| NaN
| Finite (x : number).

(** The values a watch identifier variable can hold. *)
Inductive value :=
| Undefined
| Null
| Num (n : Z).

(** [if (v)]: [undefined], [null] and [0] are falsy. *)
Definition truthy (v : value) : bool :=
  match v with
  | Num n => negb (n =? 0)
  | Undefined | Null => false
  end.

(** Exceptions and rejection reasons. *)
Record GeolocationPositionError := {
  code : Z;
  message : string
}.

Inductive exn :=
| Error (msg : string)                       (* new Error(msg) *)
| TypeError                                  (* raised by the engine *)
| PositionError (e : GeolocationPositionError).

(** How a call completes. *)
Inductive completion (A : Type) :=
| Normal (a : A)
| Throw (e : exn).
Arguments Normal {A} a.
Arguments Throw {A} e.

(** The state of a promise once the synchronous part of its executor and
    the callbacks delivered to it have run. *)
Inductive promise (A : Type) :=
| Pending
| Resolved (a : A)
| Rejected (e : exn).
Arguments Pending {A}.
Arguments Resolved {A} a.
Arguments Rejected {A} e.

(** The double quote character, for literals that contain one. *)
Definition dquote : string :=
  String (Ascii false true false false false true false false) EmptyString.

(** Decimal digits of a non-negative integer. *)
Definition digits (n : Z) : string :=
  NilZero.string_of_uint (N.to_uint (Z.to_N n)).

(** An integer as a template literal prints it. *)
Definition show_int (n : Z) : string :=
  if n <? 0 then "-" ++ digits (- n) else digits n.

(** [Math.round(x)]: the nearest integer, the larger one on a tie. *)
Definition round (x : number) : Z := Qfloor (x + (1 # 2))%Q.

(** [x.toFixed(1)]: the sign, then the integer [n] for which [n / 10] is
    closest to [|x|] (the larger one on a tie), printed with one decimal.
    Valid below 10^21, where [toFixed] switches to exponent notation. *)
Definition toFixed1 (x : number) : string :=
  let neg := ltb x 0 in
  let ax := if neg then Qopp x else x in
  let n := Qfloor (ax * 10 + (1 # 2))%Q in
  (if neg then "-" else "") ++ digits (n / 10) ++ "." ++ digits (n mod 10).

(** [toFixed(1)] on a number that may be [NaN], which prints as such. *)
Definition toFixed1_or_NaN (x : number_or_NaN) : string :=
  match x with
  | NaN => "NaN"
  | Finite x => toFixed1 x
  end.

End JS.

Import JS.

(** The binary64 operations as the Standard Library specifies them
    ([SpecFloat]), to compare [JS.fadd], [JS.fmul] and [JS.fdiv] with. *)
Module IEEE.

Definition prec : Z := 53.
Definition emax : Z := 1024.

(** The rational a finite float stands for. *)
Definition value_of (f : SpecFloat.spec_float) : option number :=
  match f with
  | SpecFloat.S754_zero _ => Some 0%Q
  | SpecFloat.S754_finite s m e =>
      Some (inject_Z (if s then Z.neg m else Z.pos m) * pow2 e)%Q
  | SpecFloat.S754_infinity _ | SpecFloat.S754_nan => None
  end.

(** The float of an integer, and of a rational whose denominator is a
    power of two. *)
Definition of_Z (z : Z) : SpecFloat.spec_float :=
  SpecFloat.binary_normalize prec emax z 0 false.
Definition of_double (x : number) : SpecFloat.spec_float :=
  let x := Qred x in
  SpecFloat.binary_normalize prec emax (Qnum x) (- Z.log2 (Zpos (Qden x))) false.

Definition fadd := SpecFloat.SFadd prec emax.
Definition fmul := SpecFloat.SFmul prec emax.
Definition fdiv := SpecFloat.SFdiv prec emax.

(** A float and a number of the model that stand for the same value. *)
Definition same (f : SpecFloat.spec_float) (x : number) : bool :=
  match value_of f with
  | Some y => Qeq_bool y x
  | None => false
  end.

End IEEE.

(* ===================================================================== *)
(** ** The browser: [window.location] and [navigator.geolocation] *)

Module Platform.

Record PositionOptions := {
  enableHighAccuracy : bool;
  timeout : Z;
  maximumAge : Z
}.

Record Coordinates := {
  latitude : number;
  longitude : number;
  accuracy : number;
  altitude : option number;
  altitudeAccuracy : option number;
  heading : option number_or_NaN;    (* NaN while the device is at rest *)
  speed : option number
}.

Record GeolocationPosition := {
  coords : Coordinates;
  timestamp : Z
}.

(** The constants carried by every [GeolocationPositionError]. *)
Definition PERMISSION_DENIED : Z := 1.
Definition POSITION_UNAVAILABLE : Z := 2.
Definition TIMEOUT : Z := 3.

(** What the platform delivers to the callbacks of a query. *)
Inductive response :=
| Fix (position : GeolocationPosition)
| Fail (error : GeolocationPositionError).

(** The watch registry of [navigator.geolocation]: the live subscriptions
    with the options they were registered with, and the identifier the
    next subscription receives. *)
Record Geolocation := {
  watches : gmap Z PositionOptions;
  nextId : Z
}.

(** [navigator.geolocation.watchPosition(success, error, options)]. *)
Definition watchPosition (options : PositionOptions) (g : Geolocation)
  : Z * Geolocation :=
  (nextId g,
   {| watches := <[nextId g := options]> (watches g);
      nextId := nextId g + 1 |}).

(** [navigator.geolocation.clearWatch(id)]: an identifier that is not
    registered is ignored. *)
Definition clearWatch (id : Z) (g : Geolocation) : Geolocation :=
  {| watches := delete id (watches g); nextId := nextId g |}.

Record Location := {
  protocol : string;
  hostname : string
}.

Record World := {
  location : Location;               (* window.location *)
  geolocation : option Geolocation   (* navigator.geolocation *)
}.

Definition set_geolocation (g : Geolocation) (w : World) : World :=
  {| location := location w; geolocation := Some g |}.

End Platform.

Import Platform.

(* ===================================================================== *)
(** ** Computations over the browser state *)

Definition M (A : Type) : Type := World -> completion A * World.

Definition ret {A} (a : A) : M A := fun w => (Normal a, w).

Definition bind {A B} (c : M A) (k : A -> M B) : M B :=
  fun w =>
    match c w with
    | (Normal a, w') => k a w'
    | (Throw e, w') => (Throw e, w')
    end.

Definition throw {A} (e : exn) : M A := fun w => (Throw e, w).
Definition get : M World := fun w => (Normal w, w).
Definition put (w : World) : M unit := fun _ => (Normal tt, w).

Declare Scope js_scope.
Delimit Scope js_scope with js.
Notation "x <- c ;; k" := (bind c (fun x => k))
  (at level 100, c at next level, right associativity) : js_scope.
Notation "c ;; k" := (bind c (fun _ => k))
  (at level 100, right associativity) : js_scope.
Local Open Scope js_scope.

(* ===================================================================== *)
(** ** [geolocationAPI] *)

Module LocationData.
(** The plain object handed to the callers' success callbacks. *)
Record t := {
  lat : number;
  lng : number;
  accuracy : number;
  altitude : option number;
  altitudeAccuracy : option number;
  heading : option number_or_NaN;
  speed : option number;
  timestamp : Z;
  coords : option Coordinates;             (* set by the one-shot query only *)
  rawPosition : option GeolocationPosition (* set by the one-shot query only *)
}.
End LocationData.

Module Analysis.
Record t := {
  accuracy : number;
  accuracyLevel : string;
  recommendations : list string;
  warnings : list string;
  info : list string
}.

(** [analysis.warnings.push(s)] and its siblings. *)
Definition push_warning (s : string) (a : t) : t :=
  {| accuracy := accuracy a; accuracyLevel := accuracyLevel a;
     recommendations := recommendations a;
     warnings := warnings a ++ [s]; info := info a |}.
Definition push_recommendation (s : string) (a : t) : t :=
  {| accuracy := accuracy a; accuracyLevel := accuracyLevel a;
     recommendations := recommendations a ++ [s];
     warnings := warnings a; info := info a |}.
Definition push_info (s : string) (a : t) : t :=
  {| accuracy := accuracy a; accuracyLevel := accuracyLevel a;
     recommendations := recommendations a;
     warnings := warnings a; info := info a ++ [s] |}.
End Analysis.

Module Reading.
Record t := {
  lat : number;
  lng : number;
  accuracy : number;
  timestamp : Z
}.
End Reading.

Module Averaged.
Record t := {
  lat : number;
  lng : number;
  accuracy : number;
  readings : list Reading.t;
  timestamp : Z
}.
End Averaged.

Module GeolocationAPI.

Definition not_supported : string :=
  "Geolocation is not supported by this browser".

(** [checkGeolocationSupport]: the promise it returns is settled by the
    time the call returns. *)
Definition checkGeolocationSupport : M (promise bool) :=
  w <- get ;;
  match geolocation w with
  | None => ret (Rejected (Error not_supported))
  | Some _ =>
      if negb (String.eqb (protocol (location w)) "https:")
         && negb (String.eqb (hostname (location w)) "localhost")
         && negb (String.eqb (hostname (location w)) "127.0.0.1")
      then
        ret (Rejected (Error
          "Geolocation requires HTTPS or localhost. Please use HTTPS or run on localhost."))
      else ret (Resolved true)
  end.

(** The options of the one-shot queries. *)
Definition oneShotOptions : PositionOptions :=
  {| enableHighAccuracy := true; timeout := 30000; maximumAge := 0 |}.

(** The success callback of [requestLocationPermission]. *)
Definition requestLocationPermission_onSuccess (position : GeolocationPosition)
  : LocationData.t :=
  {| LocationData.lat := latitude (coords position);
     LocationData.lng := longitude (coords position);
     LocationData.accuracy := accuracy (coords position);
     LocationData.altitude := altitude (coords position);
     LocationData.altitudeAccuracy := altitudeAccuracy (coords position);
     LocationData.heading := heading (coords position);
     LocationData.speed := speed (coords position);
     LocationData.timestamp := timestamp position;
     LocationData.coords := Some (coords position);
     LocationData.rawPosition := Some position |}.

(** The error callback of [requestLocationPermission]: [errorMessage]
    after the [switch] on [error.code]; the callback rejects with
    [new Error(errorMessage)]. *)
Definition requestLocationPermission_errorMessage
    (error : GeolocationPositionError) : string :=
  let errorMessage := "Location access denied" in
  let errorMessage :=
    if code error =? PERMISSION_DENIED then
      "Location access denied. Please click 'Allow' when prompted, or enable location services in your browser settings."
    else if code error =? POSITION_UNAVAILABLE then
      "Location information is unavailable. Please check your GPS settings and ensure location services are enabled."
    else if code error =? TIMEOUT then
      "Location request timed out. Please try again."
    else
      "An unknown error occurred while retrieving location." in
  errorMessage.

(** [requestLocationPermission], given what the platform answers to the
    query, if anything yet. *)
Definition requestLocationPermission (answer : option response)
  : M (promise LocationData.t) :=
  w <- get ;;
  match geolocation w with
  | None => ret (Rejected (Error not_supported))
  | Some _ =>
      match answer with
      | None => ret Pending
      | Some (Fix position) =>
          ret (Resolved (requestLocationPermission_onSuccess position))
      | Some (Fail error) =>
          ret (Rejected
                 (Error (requestLocationPermission_errorMessage error)))
      end
  end.

(** [getCurrentPosition] is an alias. *)
Definition getCurrentPosition := requestLocationPermission.

(** A call of one of the two callbacks handed to [watchPosition]:
    [callback(data)] or [errorCallback(new Error(msg))]. *)
Inductive invocation :=
| Callback (data : LocationData.t)
| ErrorCallback (msg : string).

Definition watchOptions : PositionOptions :=
  {| enableHighAccuracy := true; timeout := 30000; maximumAge := 10000 |}.

(** The success wrapper registered by [watchPosition]. *)
Definition watchPosition_onSuccess (position : GeolocationPosition)
  : LocationData.t :=
  {| LocationData.lat := latitude (coords position);
     LocationData.lng := longitude (coords position);
     LocationData.accuracy := accuracy (coords position);
     LocationData.altitude := altitude (coords position);
     LocationData.altitudeAccuracy := altitudeAccuracy (coords position);
     LocationData.heading := heading (coords position);
     LocationData.speed := speed (coords position);
     LocationData.timestamp := timestamp position;
     LocationData.coords := None;
     LocationData.rawPosition := None |}.

(** The error wrapper registered by [watchPosition]: [errorMessage] after
    the [switch] on [error.code]. *)
Definition watchPosition_errorMessage (error : GeolocationPositionError)
  : string :=
  let errorMessage := "Location tracking failed" in
  let errorMessage :=
    if code error =? PERMISSION_DENIED then
      "Location access denied. Please enable location services."
    else if code error =? POSITION_UNAVAILABLE then
      "Location information is unavailable. Please check your GPS settings."
    else if code error =? TIMEOUT then
      "Location request timed out."
    else
      "An unknown error occurred while tracking location." in
  errorMessage.

(** What [watchPosition] hands back: the identifier it returns and the
    callbacks it has called before returning. *)
Record Watch := {
  handle : value;
  invoked : list invocation
}.

Definition watchPosition : M Watch :=
  w <- get ;;
  match geolocation w with
  | None =>
      ret {| handle := Null;
             invoked := [ErrorCallback not_supported] |}
  | Some g =>
      let (id, g') := Platform.watchPosition watchOptions g in
      put (set_geolocation g' w) ;;
      ret {| handle := Num id; invoked := [] |}
  end.

(** The callbacks run when the platform later delivers [r] to the
    subscription [id]: none once the subscription is gone. *)
Definition deliver (id : Z) (r : response) (w : World) : list invocation :=
  match geolocation w with
  | None => []
  | Some g =>
      match watches g !! id with
      | None => []
      | Some _ =>
          match r with
          | Fix position => [Callback (watchPosition_onSuccess position)]
          | Fail error => [ErrorCallback (watchPosition_errorMessage error)]
          end
      end
  end.

Definition clearWatch (watchId : value) : M unit :=
  if truthy watchId then
    match watchId with
    | Num id =>
        w <- get ;;
        match geolocation w with
        | None => throw TypeError
        | Some g => put (set_geolocation (Platform.clearWatch id g) w)
        end
    | _ => ret tt
    end
  else ret tt.

(** The nested conditional that initialises [analysis.accuracyLevel]. *)
Definition accuracyLevel (accuracy : number) : string :=
  if ltb accuracy 5 then "Excellent"
  else if ltb accuracy 10 then "Very High"
  else if ltb accuracy 20 then "High"
  else if ltb accuracy 50 then "Medium"
  else if ltb accuracy 100 then "Low"
  else "Very Low".

Definition https_warning : string :=
  "Not using HTTPS. Some browsers limit geolocation accuracy on HTTP.".
Definition https_recommendation : string :=
  "Use HTTPS for maximum geolocation accuracy.".

(** The blocks of [analyzeLocationAccuracy], one per comment heading of
    the source; each takes [analysis] and leaves it with its pushes done. *)

(* Accuracy analysis *)
Definition accuracy_analysis (accuracy : number) (analysis : Analysis.t)
  : Analysis.t :=
  if gtb accuracy 100 then
    Analysis.push_recommendation
      "Try moving outdoors with clear sky view for better GPS accuracy."
      (Analysis.push_warning
         "Location accuracy is very poor (>100m). This might be network-based location."
         analysis)
  else if gtb accuracy 50 then
    Analysis.push_recommendation
      "Move to an open area or near a window for better GPS reception."
      (Analysis.push_warning
         "Location accuracy is low (50-100m). GPS signal might be weak."
         analysis)
  else if gtb accuracy 20 then
    Analysis.push_recommendation
      "Wait a few moments for GPS to settle, or move to a more open area."
      (Analysis.push_info
         "Location accuracy is moderate (20-50m). GPS is working but could be better."
         analysis)
  else if gtb accuracy 10 then
    Analysis.push_info
      "Location accuracy is good (10-20m). GPS is working well."
      analysis
  else
    Analysis.push_info
      "Location accuracy is excellent (<10m). GPS is working optimally."
      analysis.

(* Altitude analysis *)
Definition altitude_analysis (altitude altitudeAccuracy : option number)
    (analysis : Analysis.t) : Analysis.t :=
  match altitude, altitudeAccuracy with
  | Some _, Some altitudeAccuracy =>
      if gtb altitudeAccuracy 50 then
        Analysis.push_warning
          "Altitude accuracy is poor. This is normal for GPS." analysis
      else analysis
  | _, _ => analysis
  end.

(* Speed analysis *)
Definition speed_analysis (speed : option number) (analysis : Analysis.t)
  : Analysis.t :=
  match speed with
  | Some speed =>
      if gtb speed 0 then
        Analysis.push_info
          ("Device is moving at "
             ++ toFixed1 (fmul speed (literal (36 # 10))) ++ " km/h")
          analysis
      else analysis
  | None => analysis
  end.

(* Heading analysis *)
Definition heading_analysis (heading : option number_or_NaN)
    (analysis : Analysis.t) : Analysis.t :=
  match heading with
  | Some heading =>
      Analysis.push_info
        ("Device heading: " ++ toFixed1_or_NaN heading ++ "Â°") analysis
  | None => analysis
  end.

(* Environment recommendations *)
Definition environment_recommendations (accuracy : number)
    (analysis : Analysis.t) : Analysis.t :=
  if gtb accuracy 20 then
    Analysis.push_recommendation
      ("Make sure location services are set to " ++ dquote
         ++ "High Accuracy" ++ dquote ++ " mode.")
      (Analysis.push_recommendation
         "Consider enabling WiFi and mobile networks for assisted GPS."
         analysis)
  else analysis.

(* Browser recommendations *)
Definition browser_recommendations (protocol : string)
    (analysis : Analysis.t) : Analysis.t :=
  if negb (String.eqb protocol "https:") then
    Analysis.push_recommendation https_recommendation
      (Analysis.push_warning https_warning analysis)
  else analysis.

(** [analyzeLocationAccuracy]: the only ambient value read is
    [window.location.protocol]. *)
Definition analyzeLocationAccuracy (position : GeolocationPosition)
  : M Analysis.t :=
  let accuracy := accuracy (coords position) in
  let altitude := altitude (coords position) in
  let altitudeAccuracy := altitudeAccuracy (coords position) in
  let speed := speed (coords position) in
  let heading := heading (coords position) in
  let analysis :=
    {| Analysis.accuracy := accuracy;
       Analysis.accuracyLevel := accuracyLevel accuracy;
       Analysis.recommendations := [];
       Analysis.warnings := [];
       Analysis.info := [] |} in
  let analysis := accuracy_analysis accuracy analysis in
  let analysis := altitude_analysis altitude altitudeAccuracy analysis in
  let analysis := speed_analysis speed analysis in
  let analysis := heading_analysis heading analysis in
  let analysis := environment_recommendations accuracy analysis in
  w <- get ;;
  let analysis := browser_recommendations (protocol (location w)) analysis in
  ret analysis.

(** A platform call made by [getMultipleReadings]. *)
Inductive request :=
| GetCurrentPosition (options : PositionOptions)
| SetTimeout (ms : Z).

(** A run of [getMultipleReadings]: the state its promise is left in and
    the platform calls made, in order. *)
Record Run := {
  settled : promise Averaged.t;
  issued : list request
}.

Definition toReading (position : GeolocationPosition) : Reading.t :=
  {| Reading.lat := latitude (coords position);
     Reading.lng := longitude (coords position);
     Reading.accuracy := accuracy (coords position);
     Reading.timestamp := timestamp position |}.

(** [readings.reduce((sum, r) => sum + f(r), 0) / readings.length]. *)
Definition average (f : Reading.t -> number) (readings : list Reading.t)
  : number :=
  fdiv (fold_left (fun sum r => fadd sum (f r)) readings 0%Q)
       (inject_Z (Z.of_nat (length readings))).

(** The inner [getReading], run against the answers the platform gives to
    the successive queries ([script]); [now] is [Date.now()] at the time
    the promise is resolved.  With the answers exhausted the last query
    stays unanswered. *)
Fixpoint getReading (count interval now : Z) (readings : list Reading.t)
    (currentCount : Z) (script : list response) : Run :=
  match script with
  | [] =>
      {| settled := Pending; issued := [GetCurrentPosition oneShotOptions] |}
  | Fix position :: script' =>
      let readings := (readings ++ [toReading position])%list in
      let currentCount := currentCount + 1 in
      if currentCount >=? count then
        (* Calculate average position *)
        let avgLat := average Reading.lat readings in
        let avgLng := average Reading.lng readings in
        let avgAccuracy := average Reading.accuracy readings in
        {| settled :=
             Resolved {| Averaged.lat := avgLat;
                         Averaged.lng := avgLng;
                         Averaged.accuracy := avgAccuracy;
                         Averaged.readings := readings;
                         Averaged.timestamp := now |};
           issued := [GetCurrentPosition oneShotOptions] |}
      else
        let next := getReading count interval now readings currentCount script' in
        {| settled := settled next;
           issued := GetCurrentPosition oneShotOptions
                       :: SetTimeout interval :: issued next |}
  | Fail error :: _ =>
      {| settled := Rejected (PositionError error);
         issued := [GetCurrentPosition oneShotOptions] |}
  end.

(** [getMultipleReadings(count = 3, interval = 2000)]; an omitted argument
    is [None].  Without [navigator.geolocation] the first query raises
    inside the executor, which rejects the promise. *)
Definition getMultipleReadings (count interval : option Z) (now : Z)
    (script : list response) : M Run :=
  let count := default 3 count in
  let interval := default 2000 interval in
  w <- get ;;
  match geolocation w with
  | None => ret {| settled := Rejected TypeError; issued := [] |}
  | Some _ => ret (getReading count interval now [] 0 script)
  end.

End GeolocationAPI.

(* ===================================================================== *)
(** ** The auto-tracking handlers of [MapView] *)

Module MapView.

(** The part of the component state the tracking handlers use;
    [selectedTracker] is the [trackerId] of the selected tracker. *)
Record State := {
  selectedTracker : option string;
  watchId : value;
  isTracking : bool;
  error : option string;
  locationStatus : string
}.

(** The [useState] initial values. *)
Definition initial : State :=
  {| selectedTracker := None; watchId := Null; isTracking := false;
     error := None; locationStatus := "Getting location..." |}.

Definition setWatchId (v : value) (s : State) : State :=
  {| selectedTracker := selectedTracker s; watchId := v;
     isTracking := isTracking s; error := error s;
     locationStatus := locationStatus s |}.
Definition setIsTracking (b : bool) (s : State) : State :=
  {| selectedTracker := selectedTracker s; watchId := watchId s;
     isTracking := b; error := error s;
     locationStatus := locationStatus s |}.
Definition setError (e : option string) (s : State) : State :=
  {| selectedTracker := selectedTracker s; watchId := watchId s;
     isTracking := isTracking s; error := e;
     locationStatus := locationStatus s |}.
Definition setLocationStatus (t : string) (s : State) : State :=
  {| selectedTracker := selectedTracker s; watchId := watchId s;
     isTracking := isTracking s; error := error s;
     locationStatus := t |}.

(** The position callback [startAutoTracking] passes to [watchPosition].
    The update it sends through the REST client is outside this model. *)
Definition onTrackingPosition (position : LocationData.t) (s : State) : State :=
  match selectedTracker s with
  | Some _ =>
      let accuracyText :=
        if ltb (LocationData.accuracy position) 10 then "Very High"
        else if ltb (LocationData.accuracy position) 50 then "High"
        else if ltb (LocationData.accuracy position) 100 then "Medium"
        else "Low" in
      setLocationStatus
        ("Auto-tracking active (" ++ accuracyText ++ " accuracy: "
           ++ show_int (round (LocationData.accuracy position)) ++ "m)") s
  | None => s
  end.

(** The error callback [startAutoTracking] passes to [watchPosition],
    called with [new Error(message)]; an empty message is falsy. *)
Definition onTrackingError (message : string) (s : State) : State :=
  let s :=
    setError
      (Some (if String.eqb message "" then
               "Location tracking failed. Please check your location permissions."
             else message)) s in
  setLocationStatus "Auto-tracking failed" s.

(** A call of one of the two callbacks acts on the component state. *)
Definition dispatch (s : State) (i : GeolocationAPI.invocation) : State :=
  match i with
  | GeolocationAPI.Callback position => onTrackingPosition position s
  | GeolocationAPI.ErrorCallback message => onTrackingError message s
  end.

(** A handler runs on the state of the render it belongs to and leaves
    the state of the next render, together with the value it returns; the
    callbacks [watchPosition] calls before it returns run in between. *)
Definition startAutoTracking (s : State) : M (value * State) :=
  if truthy (watchId s) then ret (Undefined, s) (* Already tracking *)
  else
    let s := setLocationStatus "Starting auto-tracking..." s in
    r <- GeolocationAPI.watchPosition ;;
    let s := fold_left dispatch (GeolocationAPI.invoked r) s in
    let newWatchId := GeolocationAPI.handle r in
    let s := setWatchId newWatchId s in
    let s := setIsTracking true s in
    ret (Undefined, s).

Definition stopAutoTracking (s : State) : M (value * State) :=
  if truthy (watchId s) then
    GeolocationAPI.clearWatch (watchId s) ;;
    let s := setWatchId Null s in
    let s := setIsTracking false s in
    let s := setLocationStatus "Auto-tracking stopped" s in
    ret (Undefined, s)
  else ret (Undefined, s).

(** A sequence of clicks, each handler running on the state the previous
    one left. *)
Inductive action := Start | Stop.

Definition handler (a : action) : State -> M (value * State) :=
  match a with
  | Start => startAutoTracking
  | Stop => stopAutoTracking
  end.

Fixpoint run (actions : list action) (s : State) : M State :=
  match actions with
  | [] => ret s
  | a :: actions' =>
      r <- handler a s ;;
      run actions' (snd r)
  end.

End MapView.

Local Open Scope list_scope.

(* ===================================================================== *)
(** ** The vocabulary of the design document *)

Module Spec.

(** The accuracy tiers and the strings the code uses for them. *)
Inductive Tier := Excellent | VeryHigh | High | Medium | Low | VeryLow.

Definition tier_name (t : Tier) : string :=
  match t with
  | Excellent => "Excellent"
  | VeryHigh => "Very High"
  | High => "High"
  | Medium => "Medium"
  | Low => "Low"
  | VeryLow => "Very Low"
  end.

(** The result of a computation that completed normally. *)
Definition returned {A} (r : completion A * World) : option A :=
  match fst r with
  | Normal a => Some a
  | Throw _ => None
  end.

(** The failure kinds of the error taxonomy. *)
Inductive ErrorKind :=
| Unavailable
| PermissionDenied
| PositionUnavailable
| Timeout
| Unknown.

(** The kind a platform error code stands for. *)
Definition kind_of_code (c : Z) : ErrorKind :=
  match c with
  | 1 => PermissionDenied
  | 2 => PositionUnavailable
  | 3 => Timeout
  | _ => Unknown
  end.

(** The message the design document enumerates for each kind. *)
Definition spec_message (k : ErrorKind) : string :=
  match k with
  | PermissionDenied =>
      "Location access denied. Please allow location access or enable location services."
  | PositionUnavailable =>
      "Location information is unavailable. Check GPS/location settings."
  | Timeout => "Location request timed out. Please try again."
  | Unknown => "An unknown error occurred while retrieving location."
  | Unavailable =>
      "Geolocation is not supported, or this page is not loaded in a secure context."
  end.

(** The two error channels, and the message each pairs with each kind. *)
Inductive Channel := OneShot | Watch.

Definition channel_message (c : Channel) (k : ErrorKind) : string :=
  match c, k with
  | _, Unavailable => "Geolocation is not supported by this browser"
  | OneShot, PermissionDenied =>
      "Location access denied. Please click 'Allow' when prompted, or enable location services in your browser settings."
  | OneShot, PositionUnavailable =>
      "Location information is unavailable. Please check your GPS settings and ensure location services are enabled."
  | OneShot, Timeout => "Location request timed out. Please try again."
  | OneShot, Unknown => "An unknown error occurred while retrieving location."
  | Watch, PermissionDenied =>
      "Location access denied. Please enable location services."
  | Watch, PositionUnavailable =>
      "Location information is unavailable. Please check your GPS settings."
  | Watch, Timeout => "Location request timed out."
  | Watch, Unknown => "An unknown error occurred while tracking location."
  end.

(** A secure context as the glossary has it: encrypted transport or local
    loopback. *)
Definition isSecureTransport (l : Location) : bool :=
  String.eqb (protocol l) "https:"
  || String.eqb (hostname l) "localhost"
  || String.eqb (hostname l) "127.0.0.1".

(** The arithmetic mean of a sequence of numbers. *)
Definition mean (xs : list number) : number :=
  (fold_right Qplus 0 xs / inject_Z (Z.of_nat (length xs)))%Q.

(** The mean as double arithmetic yields it: the terms added from left to
    right starting from 0 and the sum divided by their number, each
    operation rounded to the nearest double. *)
Definition rounded_mean (xs : list number) : number :=
  fdiv (fold_left fadd xs 0%Q) (inject_Z (Z.of_nat (length xs))).

(** No operation of the mean of [xs] rounds: the exact sum of every prefix
    is a double, and so is the exact mean. *)
Definition summed_exactly (xs : list number) : Prop :=
  (forall k, (k <= length xs)%nat ->
             is_double (fold_right Qplus 0%Q (firstn k xs)))
  /\ is_double (mean xs).

(** The one-shot queries among the platform calls of a run. *)
Definition queries (l : list GeolocationAPI.request) : nat :=
  length (List.filter
            (fun c => match c with
                      | GeolocationAPI.GetCurrentPosition _ => true
                      | GeolocationAPI.SetTimeout _ => false
                      end) l).

(** The platform calls of a run that makes [n] further queries after its
    first one, a timer before each. *)
Fixpoint spaced_queries (interval : Z) (n : nat) : list GeolocationAPI.request :=
  match n with
  | O => [GeolocationAPI.GetCurrentPosition GeolocationAPI.oneShotOptions]
  | S n' =>
      GeolocationAPI.GetCurrentPosition GeolocationAPI.oneShotOptions
        :: GeolocationAPI.SetTimeout interval :: spaced_queries interval n'
  end.

(** The subscriptions alive on the platform. *)
Definition subscriptions (w : World) : nat :=
  match geolocation w with
  | None => 0
  | Some g => size (watches g)
  end.

End Spec.

Import Spec.

(* ===================================================================== *)
(** ** Invariants of the analysis blocks *)

(** What the blocks before the browser recommendations keep: the two
    fields set when [analysis] is created, and the absence of the two
    transport messages. *)
Definition untouched (a b : Analysis.t) : Prop :=
  Analysis.accuracy b = Analysis.accuracy a
  /\ Analysis.accuracyLevel b = Analysis.accuracyLevel a
  /\ (In GeolocationAPI.https_warning (Analysis.warnings b)
      -> In GeolocationAPI.https_warning (Analysis.warnings a))
  /\ (In GeolocationAPI.https_recommendation (Analysis.recommendations b)
      -> In GeolocationAPI.https_recommendation (Analysis.recommendations a)).

(* ===================================================================== *)
(** ** The invariant of the tracking session *)

(** The component and the platform agree: the platform holds the one
    subscription the component has the identifier of, or none. *)
Definition session_inv (s : MapView.State) (w : World) : Prop :=
  match geolocation w with
  | None => MapView.watchId s = Null
  | Some g =>
      0 < nextId g
      /\ match MapView.watchId s with
         | Num h => h <> 0 /\ watches g = {[ h := GeolocationAPI.watchOptions ]}
         | Undefined | Null => watches g = ∅
         end
  end.

(* ===================================================================== *)
(** ** Sample inputs *)

Module Fixtures.

(** A position with the given accuracy, speed and heading. *)
Definition position_with (a : number) (sp hd : option number)
  : GeolocationPosition :=
  {| coords := {| latitude := 10; longitude := 20; accuracy := a;
                  altitude := None; altitudeAccuracy := None;
                  heading := option_map Finite hd; speed := sp |};
     timestamp := 1700000000000 |}.

Definition fresh_registry : Geolocation :=
  {| watches := ∅; nextId := 1 |}.

(** A page served over HTTPS. *)
Definition https_page : World :=
  {| location := {| protocol := "https:"; hostname := "tracker.example" |};
     geolocation := Some fresh_registry |}.

(** A development server on the loopback interface, over plain HTTP. *)
Definition localhost_page : World :=
  {| location := {| protocol := "http:"; hostname := "localhost" |};
     geolocation := Some fresh_registry |}.

(** A browser without [navigator.geolocation]. *)
Definition no_geolocation : World :=
  {| location := {| protocol := "https:"; hostname := "tracker.example" |};
     geolocation := None |}.

(** A fix at the given latitude and longitude with the given accuracy. *)
Definition fix_at (la lo a : number) : GeolocationPosition :=
  {| coords := {| latitude := la; longitude := lo; accuracy := a;
                  altitude := None; altitudeAccuracy := None;
                  heading := None; speed := None |};
     timestamp := 1700000000000 |}.

(** The three samples of the averaging example. *)
Definition three_fixes : list GeolocationPosition :=
  [fix_at 10 20 5;
   fix_at (literal (10001 # 1000)) (literal (20001 # 1000)) 7;
   fix_at (literal (9999 # 1000)) (literal (19999 # 1000)) 6].

(** The component state once tracking has started on [https_page]. *)
Definition tracking : MapView.State :=
  {| MapView.selectedTracker := None;
     MapView.watchId := Num 1; MapView.isTracking := true;
     MapView.error := None;
     MapView.locationStatus := "Starting auto-tracking..." |}.

(** A platform error with the given code. *)
Definition platform_error (c : Z) : GeolocationPositionError :=
  {| code := c; message := "" |}.

(** A page with one live subscription, numbered 1. *)
Definition watching_page : World :=
  {| location := {| protocol := "https:"; hostname := "tracker.example" |};
     geolocation :=
       Some {| watches := {[ 1 := GeolocationAPI.watchOptions ]};
               nextId := 2 |} |}.

End Fixtures.

(* ===================================================================== *)
(** ** The messages of the analysis, by name *)

Module Messages.

Definition very_poor : string :=
  "Location accuracy is very poor (>100m). This might be network-based location.".
Definition low : string :=
  "Location accuracy is low (50-100m). GPS signal might be weak.".
Definition moderate : string :=
  "Location accuracy is moderate (20-50m). GPS is working but could be better.".
Definition good : string :=
  "Location accuracy is good (10-20m). GPS is working well.".
Definition excellent : string :=
  "Location accuracy is excellent (<10m). GPS is working optimally.".
Definition altitude_poor : string :=
  "Altitude accuracy is poor. This is normal for GPS.".

(** The two messages built from the sample. *)
Definition moving (speed : number) : string :=
  "Device is moving at " ++ toFixed1 (fmul speed (literal (36 # 10))) ++ " km/h".
Definition heading_is (heading : number_or_NaN) : string :=
  "Device heading: " ++ toFixed1_or_NaN heading ++ "Â°".

(** An analysis with nothing pushed yet; what a block pushes on it is the
    block's own contribution. *)
Definition blank : Analysis.t :=
  {| Analysis.accuracy := 0; Analysis.accuracyLevel := "";
     Analysis.recommendations := []; Analysis.warnings := [];
     Analysis.info := [] |}.

End Messages.

(** A block only appends: what it leaves is what it found followed by
    what it pushes on a blank analysis. *)
Definition appends (f : Analysis.t -> Analysis.t) : Prop :=
  forall x,
    Analysis.warnings (f x)
    = Analysis.warnings x ++ Analysis.warnings (f Messages.blank)
    /\ Analysis.info (f x)
       = Analysis.info x ++ Analysis.info (f Messages.blank)
    /\ Analysis.recommendations (f x)
       = Analysis.recommendations x
         ++ Analysis.recommendations (f Messages.blank).

(* ===================================================================== *)
(** ** Trackers and location display of [MapView] *)

(** [try { ... } catch (err) { ... }]. *)
Definition catch {A} (c : M A) (handler : exn -> M A) : M A :=
  fun w =>
    match c w with
    | (Normal a, w') => (Normal a, w')
    | (Throw e, w') => handler e w'
    end.

Module Panel.

(** What [currentLocation] holds: the data of a one-shot query or the
    result of [getMultipleReadings]. *)
Inductive shown :=
| Single (position : LocationData.t)
| Average (result : Averaged.t).

(** The location part of the component state, beside the fields the
    tracking handlers use. *)
Record State := {
  currentLocation : option shown;
  locationAnalysis : option Analysis.t;
  view : MapView.State
}.

Definition setCurrentLocation (l : shown) (s : State) : State :=
  {| currentLocation := Some l; locationAnalysis := locationAnalysis s;
     view := view s |}.
Definition setLocationAnalysis (a : Analysis.t) (s : State) : State :=
  {| currentLocation := currentLocation s; locationAnalysis := Some a;
     view := view s |}.
Definition setError (e : option string) (s : State) : State :=
  {| currentLocation := currentLocation s;
     locationAnalysis := locationAnalysis s;
     view := MapView.setError e (view s) |}.
Definition setLocationStatus (t : string) (s : State) : State :=
  {| currentLocation := currentLocation s;
     locationAnalysis := locationAnalysis s;
     view := MapView.setLocationStatus t (view s) |}.

(** [err.message]; the text of a [TypeError] is the engine's own. *)
Definition message_of (engineText : string) (err : exn) : string :=
  match err with
  | Error msg => msg
  | TypeError => engineText
  | PositionError e => message e
  end.

(** The label of the status line, as the refresh button and the position
    callback of the tracking compute it. *)
Definition accuracyText (accuracy : number) : string :=
  if ltb accuracy 10 then "Very High"
  else if ltb accuracy 50 then "High"
  else if ltb accuracy 100 then "Medium"
  else "Low".

(** [analyzeLocationAccuracy(position)] on the data of a one-shot query:
    the analysis reads [position.coords], which raises when it is
    missing. *)
Definition analyzeData (position : LocationData.t) : M Analysis.t :=
  match LocationData.coords position with
  | Some c =>
      GeolocationAPI.analyzeLocationAccuracy
        {| coords := c; timestamp := LocationData.timestamp position |}
  | None => throw TypeError
  end.

(** The [catch] block of [requestLocationPermission]. *)
Definition permissionFailed (engineText : string) (err : exn) (s : State)
  : State :=
  let s := setError (Some (message_of engineText err)) s in
  setLocationStatus "Location access denied" s.

(** [requestLocationPermission] of the component, given what the platform
    answers to the query; the state is the one the [try] block has reached
    when the [catch] block takes over. *)
Definition requestLocationPermission (engineText : string)
    (answer : option response) (s : State) : M State :=
  let s := setLocationStatus "Requesting location permission..." s in
  let s := setError None s in
  p <- GeolocationAPI.requestLocationPermission answer ;;
  match p with
  | Pending => ret s
  | Resolved position =>
      let s := setCurrentLocation (Single position) s in
      catch
        ((* Analyze location accuracy *)
         analysis <- analyzeData position ;;
         let s := setLocationAnalysis analysis s in
         ret (setLocationStatus
                ("Location found (" ++ Analysis.accuracyLevel analysis
                   ++ " accuracy: "
                   ++ show_int (round (LocationData.accuracy position))
                   ++ "m)") s))
        (fun err => ret (permissionFailed engineText err s))
  | Rejected err => ret (permissionFailed engineText err s)
  end.

(** The [catch] block of [requestMultipleReadings]. *)
Definition readingsFailed (engineText : string) (err : exn) (s : State)
  : State :=
  let s := setError (Some (message_of engineText err)) s in
  setLocationStatus "Multiple readings failed" s.

(** [requestMultipleReadings], against the answers of the platform. *)
Definition requestMultipleReadings (engineText : string) (now : Z)
    (script : list response) (s : State) : M State :=
  let s := setLocationStatus "Taking multiple readings for better accuracy..." s in
  let s := setError None s in
  run <- GeolocationAPI.getMultipleReadings (Some 3) (Some 2000) now script ;;
  match GeolocationAPI.settled run with
  | Pending => ret s
  | Resolved result =>
      let s := setCurrentLocation (Average result) s in
      catch
        ((* Analyze the averaged result *)
         analysis <-
           GeolocationAPI.analyzeLocationAccuracy
             {| coords := {| latitude := Averaged.lat result;
                             longitude := Averaged.lng result;
                             accuracy := Averaged.accuracy result;
                             altitude := None;
                             altitudeAccuracy := None;
                             heading := None;
                             speed := None |};
                timestamp := Averaged.timestamp result |} ;;
         let s := setLocationAnalysis analysis s in
         ret (setLocationStatus
                ("Multiple readings complete ("
                   ++ Analysis.accuracyLevel analysis ++ " accuracy: "
                   ++ show_int (round (Averaged.accuracy result)) ++ "m)") s))
        (fun err => ret (readingsFailed engineText err s))
  | Rejected err => ret (readingsFailed engineText err s)
  end.

(** The refresh button: [getCurrentPosition().then(...).catch(...)]. *)
Definition refreshLocation (engineText : string) (answer : option response)
    (s : State) : M State :=
  let s := setLocationStatus "Refreshing location..." s in
  p <- GeolocationAPI.getCurrentPosition answer ;;
  match p with
  | Pending => ret s
  | Resolved position =>
      let s := setCurrentLocation (Single position) s in
      let accuracyText := accuracyText (LocationData.accuracy position) in
      ret (setLocationStatus
             ("Location refreshed (" ++ accuracyText ++ " accuracy: "
                ++ show_int (round (LocationData.accuracy position)) ++ "m)") s)
  | Rejected err =>
      let s := setError (Some (message_of engineText err)) s in
      ret (setLocationStatus "Location refresh failed" s)
  end.

End Panel.

Module Update.
(** The payload of an "update" event of the socket. *)
Record t := {
  trackerId : string;
  lat : number;                (* data.location.lat *)
  lng : number;                (* data.location.lng *)
  timestamp : option string
}.
End Update.

Module Trackers.

(** A GeoJSON point; [coordinates] is the array [[lng, lat]]. *)
Record Point := {
  type : string;
  coordinates : option (list number)
}.

Record Tracker := {
  trackerId : string;
  name : string;
  currentStatus : string;
  currentLocation : option Point;
  lastUpdatedAt : option string
}.

(** The "update" handler of the socket: the function handed to
    [setTrackers]. *)
Definition onUpdate (data : Update.t) (prev : list Tracker) : list Tracker :=
  map (fun tracker =>
         if String.eqb (trackerId tracker) (Update.trackerId data) then
           {| trackerId := trackerId tracker;
              name := name tracker;
              currentStatus := currentStatus tracker;
              currentLocation :=
                Some {| type := "Point";
                        coordinates := Some [Update.lng data; Update.lat data] |};
              lastUpdatedAt := Update.timestamp data |}
         else tracker)
      prev.

(** Where the marker of a tracker is drawn, as [[lat, lng]]: nowhere
    without a location or coordinates. *)
Definition markerPosition (tracker : Tracker)
  : option (option number * option number) :=
  match currentLocation tracker with
  | None => None
  | Some point =>
      match coordinates point with
      | None => None
      | Some cs =>
          let lng := nth_error cs 0 in
          let lat := nth_error cs 1 in
          Some (lat, lng)
      end
  end.

(** The trackers beside the fields the tracking handlers use. *)
Record Page := {
  trackers : list Tracker;
  view : MapView.State
}.

Definition setSelectedTracker (t : option string) (s : MapView.State)
  : MapView.State :=
  {| MapView.selectedTracker := t;
     MapView.watchId := MapView.watchId s;
     MapView.isTracking := MapView.isTracking s;
     MapView.error := MapView.error s;
     MapView.locationStatus := MapView.locationStatus s |}.

Definition deleteFailed (p : Page) : Page :=
  {| trackers := trackers p;
     view := MapView.setError (Some "Failed to delete tracker") (view p) |}.

(** [handleDeleteTracker], given whether the REST call succeeded. *)
Definition handleDeleteTracker (trackerId : string) (deleted : bool) (p : Page)
  : M Page :=
  if deleted then
    let p :=
      {| trackers :=
           List.filter
             (fun t => negb (String.eqb (Trackers.trackerId t) trackerId))
             (trackers p);
         view := view p |} in
    match MapView.selectedTracker (view p) with
    | Some selected =>
        if String.eqb selected trackerId then
          let p := {| trackers := trackers p;
                      view := setSelectedTracker None (view p) |} in
          catch
            (r <- MapView.stopAutoTracking (view p) ;;
             ret {| trackers := trackers p; view := snd r |})
            (fun _ => ret (deleteFailed p))
        else ret p
    | None => ret p
    end
  else ret (deleteFailed p).

End Trackers.


(* ===================================================================== *)
(** ** Comparisons *)

Lemma ltb_lt (x y : number) : ltb x y = true <-> (x < y)%Q.
Proof.
  unfold ltb. rewrite Qlt_alt.
  destruct (x ?= y)%Q; split; intros H; congruence.
Qed.

Lemma ltb_ge (x y : number) : ltb x y = false <-> (y <= x)%Q.
Proof.
  split; intros H.
  - apply Qnot_lt_le. intros Hlt. apply ltb_lt in Hlt. congruence.
  - destruct (ltb x y) eqn:E; [|reflexivity].
    apply ltb_lt in E. exfalso. exact (Qlt_not_le _ _ E H).
Qed.

Lemma tier_name_inj (t u : Tier) : tier_name t = tier_name u -> t = u.
Proof. destruct t, u; simpl; intros H; try reflexivity; discriminate H. Qed.

(* ===================================================================== *)
(** ** The accuracy classifier *)

(** Case analysis on the tests of one block of the analysis. *)
Ltac block_cases :=
  repeat match goal with
    | |- context [match ?o with Some _ => _ | None => _ end] => destruct o
    | |- context [if ?c then _ else _] => destruct c
    end.

Lemma untouched_trans (a b c : Analysis.t) :
  untouched a b -> untouched b c -> untouched a c.
Proof.
  unfold untouched. intros (H1 & H2 & H3 & H4) (K1 & K2 & K3 & K4).
  repeat split; try congruence; auto.
Qed.

(** Closes [untouched a (block a)] once the tests of the block are decided:
    a pushed string is one of the block's own literals. *)
Ltac block_untouched :=
  unfold untouched; block_cases;
  cbn [Analysis.accuracy Analysis.accuracyLevel Analysis.warnings
       Analysis.recommendations Analysis.push_warning Analysis.push_info
       Analysis.push_recommendation];
  repeat split; try reflexivity; try (intros H; exact H);
  intros H; repeat (apply in_app_or in H; destruct H as [H|H]);
  try exact H;
  repeat (destruct H as [H|H]; try discriminate H); try contradiction.

Lemma accuracy_analysis_untouched (accuracy : number) (a : Analysis.t) :
  untouched a (GeolocationAPI.accuracy_analysis accuracy a).
Proof. unfold GeolocationAPI.accuracy_analysis. block_untouched. Qed.

Lemma altitude_analysis_untouched (alt altAcc : option number) (a : Analysis.t) :
  untouched a (GeolocationAPI.altitude_analysis alt altAcc a).
Proof. unfold GeolocationAPI.altitude_analysis. block_untouched. Qed.

Lemma speed_analysis_untouched (speed : option number) (a : Analysis.t) :
  untouched a (GeolocationAPI.speed_analysis speed a).
Proof. unfold GeolocationAPI.speed_analysis. block_untouched. Qed.

Lemma heading_analysis_untouched (heading : option number_or_NaN) (a : Analysis.t) :
  untouched a (GeolocationAPI.heading_analysis heading a).
Proof. unfold GeolocationAPI.heading_analysis. block_untouched. Qed.

Lemma environment_recommendations_untouched (accuracy : number) (a : Analysis.t) :
  untouched a (GeolocationAPI.environment_recommendations accuracy a).
Proof.
  unfold GeolocationAPI.environment_recommendations, dquote. block_untouched.
Qed.

(** The analysis as it stands before the browser recommendations. *)
Lemma analyze_split (position : GeolocationPosition) (w : World) :
  exists a,
    GeolocationAPI.analyzeLocationAccuracy position w
    = (Normal (GeolocationAPI.browser_recommendations (protocol (location w)) a),
       w)
    /\ Analysis.accuracy a = accuracy (coords position)
    /\ Analysis.accuracyLevel a
       = GeolocationAPI.accuracyLevel (accuracy (coords position))
    /\ ~ In GeolocationAPI.https_warning (Analysis.warnings a)
    /\ ~ In GeolocationAPI.https_recommendation (Analysis.recommendations a).
Proof.
  unfold GeolocationAPI.analyzeLocationAccuracy, bind, get, ret.
  eexists. split; [reflexivity|].
  match goal with
  | |- context [GeolocationAPI.accuracy_analysis _ ?a0] =>
      assert (H : untouched a0
                    (GeolocationAPI.environment_recommendations
                       (accuracy (coords position))
                       (GeolocationAPI.heading_analysis
                          (heading (coords position))
                          (GeolocationAPI.speed_analysis
                             (speed (coords position))
                             (GeolocationAPI.altitude_analysis
                                (altitude (coords position))
                                (altitudeAccuracy (coords position))
                                (GeolocationAPI.accuracy_analysis
                                   (accuracy (coords position)) a0))))))
  end.
  { eapply untouched_trans; [|apply environment_recommendations_untouched].
    eapply untouched_trans; [|apply heading_analysis_untouched].
    eapply untouched_trans; [|apply speed_analysis_untouched].
    eapply untouched_trans; [|apply altitude_analysis_untouched].
    apply accuracy_analysis_untouched. }
  destruct H as (H1 & H2 & H3 & H4).
  repeat split; auto.
Qed.

(** The call completes normally, leaves the browser state alone, and the
    pushes keep the two fields set when [analysis] is created. *)
Lemma analyze_completes (position : GeolocationPosition) (w : World) :
  exists r,
    GeolocationAPI.analyzeLocationAccuracy position w = (Normal r, w)
    /\ Analysis.accuracy r = accuracy (coords position)
    /\ Analysis.accuracyLevel r
       = GeolocationAPI.accuracyLevel (accuracy (coords position)).
Proof.
  destruct (analyze_split position w) as (a & Hrun & Hacc & Hlevel & _).
  eexists. split; [exact Hrun|].
  unfold GeolocationAPI.browser_recommendations.
  destruct (negb _); split; assumption.
Qed.

(** Through the threshold cascade, with each test turned into the order
    fact it decides. *)
Ltac level_cases :=
  repeat match goal with
    | |- context [if ltb ?x ?y then _ else _] =>
        let E := fresh "E" in
        destruct (ltb x y) eqn:E; [apply ltb_lt in E | apply ltb_ge in E]
    end;
  try reflexivity; exfalso; lra.

Lemma accuracyLevel_cases (a : number) :
  ((a < 5)%Q -> GeolocationAPI.accuracyLevel a = tier_name Excellent)
  /\ ((5 <= a)%Q -> (a < 10)%Q -> GeolocationAPI.accuracyLevel a = tier_name VeryHigh)
  /\ ((10 <= a)%Q -> (a < 20)%Q -> GeolocationAPI.accuracyLevel a = tier_name High)
  /\ ((20 <= a)%Q -> (a < 50)%Q -> GeolocationAPI.accuracyLevel a = tier_name Medium)
  /\ ((50 <= a)%Q -> (a < 100)%Q -> GeolocationAPI.accuracyLevel a = tier_name Low)
  /\ ((100 <= a)%Q -> GeolocationAPI.accuracyLevel a = tier_name VeryLow).
Proof.
  unfold GeolocationAPI.accuracyLevel.
  repeat split; intros; level_cases.
Qed.

(** C1.  For a sample whose accuracy is not negative, the tier of the
    analysis follows the thresholds with exclusive upper bounds, the first
    match winning: below 5 Excellent, below 10 Very High, below 20 High,
    below 50 Medium, below 100 Low, and Very Low from 100 on. *)
Theorem classify_tier_thresholds (position : GeolocationPosition) (w : World) :
  (0 <= accuracy (coords position))%Q ->
  exists r,
    returned (GeolocationAPI.analyzeLocationAccuracy position w) = Some r
    /\ let a := accuracy (coords position) in
       let tier := Analysis.accuracyLevel r in
       ((a < 5)%Q -> tier = tier_name Excellent)
       /\ ((5 <= a)%Q -> (a < 10)%Q -> tier = tier_name VeryHigh)
       /\ ((10 <= a)%Q -> (a < 20)%Q -> tier = tier_name High)
       /\ ((20 <= a)%Q -> (a < 50)%Q -> tier = tier_name Medium)
       /\ ((50 <= a)%Q -> (a < 100)%Q -> tier = tier_name Low)
       /\ ((100 <= a)%Q -> tier = tier_name VeryLow).
Proof.
  intros _.
  destruct (analyze_completes position w) as (r & Hrun & _ & Hlevel).
  exists r. split.
  - unfold returned. rewrite Hrun. reflexivity.
  - cbv zeta. rewrite Hlevel. apply accuracyLevel_cases.
Qed.

Lemma classify_tier_thresholds_witness :
  (0 <= 8)%Q
  /\ exists r,
       returned (GeolocationAPI.analyzeLocationAccuracy
                   (Fixtures.position_with 8 (Some 5%Q) None)
                   Fixtures.https_page) = Some r
       /\ Analysis.accuracyLevel r = "Very High".
Proof.
  assert (H0 : (0 <= 8)%Q) by (unfold Qle; simpl; lia).
  split; [exact H0|].
  destruct (classify_tier_thresholds
              (Fixtures.position_with 8 (Some 5%Q) None) Fixtures.https_page H0)
    as (r & Hr & _ & Hvh & _).
  exists r. split; [exact Hr|].
  apply Hvh; unfold Qle, Qlt; simpl; lia.
Defined.

(** C2, as stated, fails at the boundary it names: an accuracy of exactly
    10 is not below 10, so the analysis is High and not Very High. *)
Lemma accuracy_ten_is_not_VeryHigh :
  exists r,
    returned (GeolocationAPI.analyzeLocationAccuracy
                (Fixtures.position_with 10 None None)
                Fixtures.https_page) = Some r
    /\ Analysis.accuracyLevel r = tier_name High
    /\ Analysis.accuracyLevel r <> tier_name VeryHigh.
Proof.
  eexists. split; [reflexivity|].
  split; [reflexivity|].
  simpl. discriminate.
Qed.

(** C2, amended.  For a sample whose accuracy is not negative the analysis
    carries exactly one tier, and each threshold belongs to the tier above
    it: exactly 5 is Very High, exactly 10 is High, exactly 20 is Medium,
    exactly 50 is Low and exactly 100 is Very Low. *)
Theorem classify_one_tier_exclusive_bounds
    (position : GeolocationPosition) (w : World) :
  (0 <= accuracy (coords position))%Q ->
  exists r,
    returned (GeolocationAPI.analyzeLocationAccuracy position w) = Some r
    /\ (exists! t : Tier, Analysis.accuracyLevel r = tier_name t)
    /\ let a := accuracy (coords position) in
       let tier := Analysis.accuracyLevel r in
       ((a == 5)%Q -> tier = tier_name VeryHigh)
       /\ ((a == 10)%Q -> tier = tier_name High)
       /\ ((a == 20)%Q -> tier = tier_name Medium)
       /\ ((a == 50)%Q -> tier = tier_name Low)
       /\ ((a == 100)%Q -> tier = tier_name VeryLow).
Proof.
  intros _.
  destruct (analyze_completes position w) as (r & Hrun & _ & Hlevel).
  destruct (accuracyLevel_cases (accuracy (coords position)))
    as (H5 & H10 & H20 & H50 & H100 & Hinf).
  rewrite <- Hlevel in H5, H10, H20, H50, H100, Hinf.
  exists r. split; [unfold returned; rewrite Hrun; reflexivity|]. split.
  - set (a := accuracy (coords position)) in *.
    assert (Hsome : exists t, Analysis.accuracyLevel r = tier_name t).
    { destruct (Qlt_le_dec a 5); [eexists; apply H5; assumption|].
      destruct (Qlt_le_dec a 10); [eexists; apply H10; assumption|].
      destruct (Qlt_le_dec a 20); [eexists; apply H20; assumption|].
      destruct (Qlt_le_dec a 50); [eexists; apply H50; assumption|].
      destruct (Qlt_le_dec a 100); [eexists; apply H100; assumption|].
      eexists; apply Hinf; assumption. }
    destruct Hsome as (t & Ht). exists t. split; [exact Ht|].
    intros u Hu. apply tier_name_inj. congruence.
  - cbv zeta. repeat split; intros E.
    + apply H10; lra.
    + apply H20; lra.
    + apply H50; lra.
    + apply H100; lra.
    + apply Hinf; lra.
Qed.

Lemma classify_one_tier_exclusive_bounds_witness :
  (0 <= 10)%Q
  /\ exists r,
       returned (GeolocationAPI.analyzeLocationAccuracy
                   (Fixtures.position_with 10 None None)
                   Fixtures.localhost_page) = Some r
       /\ Analysis.accuracyLevel r = "High".
Proof.
  assert (H0 : (0 <= 10)%Q) by (unfold Qle; simpl; lia).
  split; [exact H0|].
  destruct (classify_one_tier_exclusive_bounds
              (Fixtures.position_with 10 None None) Fixtures.localhost_page H0)
    as (r & Hr & _ & _ & Hten & _).
  exists r. split; [exact Hr|].
  apply Hten. reflexivity.
Defined.

(* ===================================================================== *)
(** ** Error messages *)

Lemma oneShot_message_of_code (error : GeolocationPositionError) :
  GeolocationAPI.requestLocationPermission_errorMessage error
  = channel_message OneShot (kind_of_code (code error)).
Proof.
  unfold GeolocationAPI.requestLocationPermission_errorMessage,
    PERMISSION_DENIED, POSITION_UNAVAILABLE, TIMEOUT.
  destruct (Z.eqb_spec (code error) 1) as [->|H1]; [reflexivity|].
  destruct (Z.eqb_spec (code error) 2) as [->|H2]; [reflexivity|].
  destruct (Z.eqb_spec (code error) 3) as [->|H3]; [reflexivity|].
  destruct (code error) as [|p|p]; try reflexivity.
  destruct p as [[q|q|]|[q|q|]|]; try reflexivity; congruence.
Qed.

Lemma watch_message_of_code (error : GeolocationPositionError) :
  GeolocationAPI.watchPosition_errorMessage error
  = channel_message Watch (kind_of_code (code error)).
Proof.
  unfold GeolocationAPI.watchPosition_errorMessage,
    PERMISSION_DENIED, POSITION_UNAVAILABLE, TIMEOUT.
  destruct (Z.eqb_spec (code error) 1) as [->|H1]; [reflexivity|].
  destruct (Z.eqb_spec (code error) 2) as [->|H2]; [reflexivity|].
  destruct (Z.eqb_spec (code error) 3) as [->|H3]; [reflexivity|].
  destruct (code error) as [|p|p]; try reflexivity.
  destruct p as [[q|q|]|[q|q|]|]; try reflexivity; congruence.
Qed.

(** C3, as stated, fails: for a denied permission neither channel gives the
    message of the design document, and the two channels differ from each
    other. *)
Lemma permission_denied_messages_differ :
  let denied := Fixtures.platform_error PERMISSION_DENIED in
  returned (GeolocationAPI.requestLocationPermission (Some (Fail denied))
              Fixtures.https_page)
    <> Some (Rejected (Error (spec_message PermissionDenied)))
  /\ GeolocationAPI.deliver 1 (Fail denied) Fixtures.watching_page
     <> [GeolocationAPI.ErrorCallback (spec_message PermissionDenied)]
  /\ GeolocationAPI.requestLocationPermission_errorMessage denied
     <> GeolocationAPI.watchPosition_errorMessage denied.
Proof.
  cbv zeta. repeat split; vm_compute; intros H; discriminate H.
Qed.

(** C3, amended.  Every acquisition failure is paired with one fixed
    message that depends on the error kind and on the channel only.  A
    missing capability gives "Geolocation is not supported by this browser"
    on both channels.  For a platform error the one-shot channel rejects
    with the one-shot message of the kind of its code and the watch channel
    calls the error callback with the watch message of that kind; of these
    only the one-shot messages for Timeout and Unknown are those of the
    design document. *)
Theorem failure_messages_fixed_per_kind_and_channel :
  (forall (w : World) (answer : option response),
      geolocation w = None ->
      GeolocationAPI.requestLocationPermission answer w
      = (Normal (Rejected (Error (channel_message OneShot Unavailable))), w)
      /\ GeolocationAPI.watchPosition w
         = (Normal {| GeolocationAPI.handle := Null;
                      GeolocationAPI.invoked :=
                        [GeolocationAPI.ErrorCallback
                           (channel_message Watch Unavailable)] |}, w))
  /\ (forall (w : World) (error : GeolocationPositionError),
        geolocation w <> None ->
        GeolocationAPI.requestLocationPermission (Some (Fail error)) w
        = (Normal (Rejected
                     (Error (channel_message OneShot
                               (kind_of_code (code error))))), w))
  /\ (forall (w : World) (g : Geolocation) (id : Z)
             (error : GeolocationPositionError),
        geolocation w = Some g ->
        watches g !! id <> None ->
        GeolocationAPI.deliver id (Fail error) w
        = [GeolocationAPI.ErrorCallback
             (channel_message Watch (kind_of_code (code error)))])
  /\ (forall k : ErrorKind,
        channel_message OneShot k = spec_message k
        <-> k = Timeout \/ k = Unknown)
  /\ (forall k : ErrorKind, channel_message Watch k <> spec_message k).
Proof.
  split; [|split; [|split; [|split]]].
  - intros w answer Hw.
    unfold GeolocationAPI.requestLocationPermission,
      GeolocationAPI.watchPosition, bind, get, ret.
    rewrite Hw. split; reflexivity.
  - intros w error Hw.
    unfold GeolocationAPI.requestLocationPermission, bind, get, ret.
    destruct (geolocation w); [|congruence].
    rewrite oneShot_message_of_code. reflexivity.
  - intros w g id error Hw Hid.
    unfold GeolocationAPI.deliver. rewrite Hw.
    destruct (watches g !! id); [|congruence].
    rewrite watch_message_of_code. reflexivity.
  - intros k. split.
    + destruct k; simpl; intros H; try discriminate H; auto.
    + intros [-> | ->]; reflexivity.
  - intros k. destruct k; simpl; intros H; discriminate H.
Qed.

Lemma failure_messages_fixed_per_kind_and_channel_witness :
  GeolocationAPI.requestLocationPermission None Fixtures.no_geolocation
  = (Normal (Rejected (Error "Geolocation is not supported by this browser")),
     Fixtures.no_geolocation)
  /\ GeolocationAPI.requestLocationPermission
       (Some (Fail (Fixtures.platform_error TIMEOUT))) Fixtures.https_page
     = (Normal (Rejected (Error "Location request timed out. Please try again.")),
        Fixtures.https_page)
  /\ GeolocationAPI.deliver 1 (Fail (Fixtures.platform_error TIMEOUT))
       Fixtures.watching_page
     = [GeolocationAPI.ErrorCallback "Location request timed out."].
Proof.
  destruct failure_messages_fixed_per_kind_and_channel
    as (Habsent & Hone & Hwatch & _).
  split; [|split].
  - apply (Habsent Fixtures.no_geolocation None). reflexivity.
  - apply (Hone Fixtures.https_page (Fixtures.platform_error TIMEOUT)).
    simpl. discriminate.
  - apply (Hwatch Fixtures.watching_page _ 1
             (Fixtures.platform_error TIMEOUT) eq_refl).
    vm_compute. discriminate.
Defined.

(* ===================================================================== *)
(** ** The transport messages and purity of the classifier *)

(** C6, as stated, fails on the loopback interface: a page served from
    localhost over plain HTTP is a secure context, the support check
    accepts it, and the analysis still carries both messages. *)
Lemma loopback_over_http_is_warned :
  isSecureTransport (location Fixtures.localhost_page) = true
  /\ returned (GeolocationAPI.checkGeolocationSupport Fixtures.localhost_page)
     = Some (Resolved true)
  /\ exists r,
       returned (GeolocationAPI.analyzeLocationAccuracy
                   (Fixtures.position_with 8 None None)
                   Fixtures.localhost_page) = Some r
       /\ In GeolocationAPI.https_warning (Analysis.warnings r)
       /\ In GeolocationAPI.https_recommendation (Analysis.recommendations r).
Proof.
  split; [reflexivity|]. split; [reflexivity|].
  eexists. split; [reflexivity|].
  split; simpl; auto.
Qed.

(** C6, amended.  The analysis carries the warning "Not using HTTPS. Some
    browsers limit geolocation accuracy on HTTP." and the recommendation
    "Use HTTPS for maximum geolocation accuracy." exactly when the protocol
    of the page is not "https:"; the host name plays no part, so a loopback
    page over plain HTTP carries both, and a page over HTTPS carries
    neither. *)
Theorem https_messages_iff_not_https (position : GeolocationPosition) (w : World) :
  exists r,
    GeolocationAPI.analyzeLocationAccuracy position w = (Normal r, w)
    /\ (In GeolocationAPI.https_warning (Analysis.warnings r)
        <-> protocol (location w) <> "https:")
    /\ (In GeolocationAPI.https_recommendation (Analysis.recommendations r)
        <-> protocol (location w) <> "https:").
Proof.
  destruct (analyze_split position w) as (a & Hrun & _ & _ & Hw & Hr).
  eexists. split; [exact Hrun|].
  unfold GeolocationAPI.browser_recommendations.
  destruct (String.eqb_spec (protocol (location w)) "https:") as [E|E];
    cbn [negb Analysis.warnings Analysis.recommendations
         Analysis.push_warning Analysis.push_recommendation];
    split; split; intros H; try congruence; try contradiction;
    apply in_or_app; right; left; reflexivity.
Qed.

(** C9, as stated, fails: the page does not enter the analysis through
    [isSecureTransport].  A page over HTTPS and a loopback page over plain
    HTTP are both secure transports, and the same sample is analysed
    differently on them: only the second analysis carries the two transport
    messages. *)
Lemma secure_pages_analysed_differently :
  isSecureTransport (location Fixtures.https_page)
  = isSecureTransport (location Fixtures.localhost_page)
  /\ exists r1 r2,
       returned (GeolocationAPI.analyzeLocationAccuracy
                   (Fixtures.position_with 8 None None) Fixtures.https_page)
       = Some r1
       /\ returned (GeolocationAPI.analyzeLocationAccuracy
                      (Fixtures.position_with 8 None None)
                      Fixtures.localhost_page)
          = Some r2
       /\ Analysis.warnings r1 = []
       /\ Analysis.warnings r2 = [GeolocationAPI.https_warning]
       /\ r1 <> r2.
Proof.
  split; [reflexivity|].
  eexists. eexists. split; [reflexivity|]. split; [reflexivity|].
  split; [reflexivity|]. split; [reflexivity|].
  intros H. apply (f_equal Analysis.warnings) in H. discriminate H.
Qed.

(** C9, amended.  The analysis is a function of the sample and of the one
    ambient value it reads, whether the page's protocol is "https:": every
    call completes normally and leaves the browser state as it found it,
    and two calls on the same sample return the same analysis (tier,
    warnings, info and recommendations alike) exactly when the two browser
    states agree on that flag. *)
Theorem classify_pure (position : GeolocationPosition) (w1 w2 : World) :
  exists r1 r2,
    GeolocationAPI.analyzeLocationAccuracy position w1 = (Normal r1, w1)
    /\ GeolocationAPI.analyzeLocationAccuracy position w2 = (Normal r2, w2)
    /\ (r1 = r2
        <-> String.eqb (protocol (location w1)) "https:"
            = String.eqb (protocol (location w2)) "https:").
Proof.
  unfold GeolocationAPI.analyzeLocationAccuracy,
    GeolocationAPI.browser_recommendations, bind, get, ret.
  eexists. eexists. split; [reflexivity|]. split; [reflexivity|].
  split.
  - intros H. apply (f_equal (fun a => length (Analysis.warnings a))) in H.
    destruct (String.eqb (protocol (location w1)) "https:"),
      (String.eqb (protocol (location w2)) "https:");
      try reflexivity; exfalso;
      cbn [negb Analysis.warnings Analysis.push_warning
           Analysis.push_recommendation] in H;
      rewrite length_app in H; cbn [length] in H; lia.
  - intros H. rewrite H. reflexivity.
Qed.

Lemma classify_pure_witness :
  exists r,
    GeolocationAPI.analyzeLocationAccuracy
      (Fixtures.position_with 8 (Some 5%Q) None) Fixtures.https_page
    = (Normal r, Fixtures.https_page)
    /\ GeolocationAPI.analyzeLocationAccuracy
         (Fixtures.position_with 8 (Some 5%Q) None) Fixtures.watching_page
       = (Normal r, Fixtures.watching_page).
Proof.
  destruct (classify_pure (Fixtures.position_with 8 (Some 5%Q) None)
              Fixtures.https_page Fixtures.watching_page)
    as (r1 & r2 & H1 & H2 & Hiff).
  exists r1. split; [exact H1|].
  rewrite (proj2 Hiff eq_refl). exact H2.
Defined.

(* ===================================================================== *)
(** ** The multi-sample averager *)

(** The sum that [average] folds over the samples is the sum of the
    projected fields. *)
Lemma fold_left_fadd (f : Reading.t -> number) (rs : list Reading.t) (a : number) :
  fold_left (fun sum r => fadd sum (f r)) rs a = fold_left fadd (map f rs) a.
Proof.
  revert a. induction rs as [|r rs IH]; intros a; [reflexivity|].
  cbn [fold_left map]. apply IH.
Qed.

Lemma average_rounded_mean (f : Reading.t -> number) (rs : list Reading.t) :
  GeolocationAPI.average f rs = rounded_mean (map f rs).
Proof.
  unfold GeolocationAPI.average, rounded_mean.
  rewrite fold_left_fadd, length_map. reflexivity.
Qed.

(** Rounding sees the value of a rational, not its representation. *)
Lemma round64_compat (x y : Q) : (x == y)%Q -> round64 x = round64 y.
Proof.
  intros H. unfold round64. rewrite (Qred_complete x y H). reflexivity.
Qed.

(** The rounded operations against the Standard Library's binary64 on the
    numbers of the examples: the literals 3.6, 12.3 and 10.001, the
    products 0.875 * 3.6 and 1.125 * 3.6, the sums and quotients of the
    means of three samples of 12.3, of 2.1, 5.1 and 7.8, and of 10, 10.001
    and 9.999. *)
Example rounded_operations_agree_with_binary64 :
  let sum xs :=
    fold_left (fun s x => IEEE.fadd s (IEEE.of_double x)) xs (IEEE.of_Z 0) in
  let a := literal (123 # 10) in
  let l := [literal (21 # 10); literal (51 # 10); literal (78 # 10)] in
  let lats := [10%Q; literal (10001 # 1000); literal (9999 # 1000)] in
  IEEE.same (IEEE.fdiv (IEEE.of_Z 36) (IEEE.of_Z 10)) (literal (36 # 10)) = true
  /\ IEEE.same (IEEE.fdiv (IEEE.of_Z 123) (IEEE.of_Z 10)) a = true
  /\ IEEE.same (IEEE.fdiv (IEEE.of_Z 10001) (IEEE.of_Z 1000))
       (literal (10001 # 1000)) = true
  /\ IEEE.same (IEEE.fmul (IEEE.of_double (7 # 8))
                  (IEEE.of_double (literal (36 # 10))))
       (fmul (7 # 8) (literal (36 # 10))) = true
  /\ IEEE.same (IEEE.fmul (IEEE.of_double (9 # 8))
                  (IEEE.of_double (literal (36 # 10))))
       (fmul (9 # 8) (literal (36 # 10))) = true
  /\ toFixed1 (fmul (9 # 8) (literal (36 # 10))) = "4.0"
  /\ IEEE.same (sum [a; a; a]) (fold_left fadd [a; a; a] 0%Q) = true
  /\ IEEE.same (IEEE.fdiv (sum [a; a; a]) (IEEE.of_Z 3))
       (rounded_mean [a; a; a]) = true
  /\ IEEE.same (IEEE.fdiv (sum l) (IEEE.of_Z 3)) (rounded_mean l) = true
  /\ IEEE.same (IEEE.fdiv (sum lats) (IEEE.of_Z 3)) (rounded_mean lats) = true
  /\ IEEE.same (IEEE.fdiv (sum lats) (IEEE.of_Z 3)) 10 = true.
Proof. cbv zeta. repeat split; vm_compute; reflexivity. Qed.

Lemma is_double_compat (x y : number) :
  (x == y)%Q -> is_double x -> is_double y.
Proof.
  unfold is_double. intros H Hx.
  rewrite <- (round64_compat x y H). rewrite Hx. exact H.
Qed.

(** Without rounding the running sum is the exact one. *)
Lemma fold_left_fadd_exact (xs : list number) :
  forall a : number,
    (forall k, (k <= length xs)%nat ->
               is_double (a + fold_right Qplus 0 (firstn k xs))%Q) ->
    (fold_left fadd xs a == a + fold_right Qplus 0 xs)%Q.
Proof.
  induction xs as [|x xs IH]; intros a H.
  - cbn [fold_left fold_right]. unfold number in *. ring.
  - cbn [fold_left fold_right].
    assert (E : (fadd a x == a + x)%Q).
    { pose proof (H 1%nat ltac:(cbn [length]; lia)) as H1.
      cbn [firstn fold_right] in H1. unfold fadd.
      assert (E1 : (a + (x + 0) == a + x)%Q) by (unfold number in *; ring).
      exact (is_double_compat _ _ E1 H1). }
    rewrite IH.
    + rewrite E. unfold number in *. ring.
    + intros k Hk.
      pose proof (H (S k) ltac:(cbn [length]; lia)) as Hk'.
      cbn [firstn fold_right] in Hk'.
      refine (is_double_compat _ _ _ Hk').
      rewrite E. unfold number in *. ring.
Qed.

(** Where no operation rounds, the mean of the source is the arithmetic
    mean. *)
Lemma rounded_mean_exact (xs : list number) :
  summed_exactly xs -> (rounded_mean xs == mean xs)%Q.
Proof.
  intros [Hsum Hmean]. unfold rounded_mean, fdiv.
  assert (E : (fold_left fadd xs 0 == fold_right Qplus 0 xs)%Q).
  { rewrite fold_left_fadd_exact.
    - unfold number in *. ring.
    - intros k Hk. refine (is_double_compat _ _ _ (Hsum k Hk)).
      unfold number in *. ring. }
  assert (E' : (fold_left fadd xs 0 / inject_Z (Z.of_nat (length xs))
                == mean xs)%Q).
  { unfold mean. rewrite E. reflexivity. }
  rewrite (round64_compat _ _ E'). exact Hmean.
Qed.

(** The mean of a single double is that double. *)
Lemma rounded_mean_single (x : number) :
  is_double x -> (rounded_mean [x] == x)%Q.
Proof.
  unfold is_double, rounded_mean, fadd, fdiv. cbn [fold_left length].
  intros H.
  assert (E : round64 (0 + x) = round64 x).
  { apply round64_compat. unfold number in *. ring. }
  rewrite E.
  assert (E' : round64 (round64 x / inject_Z (Z.of_nat 1)) = round64 x).
  { apply round64_compat. rewrite H.
    change (inject_Z (Z.of_nat 1)) with 1%Q. unfold number in *. field. }
  rewrite E'. exact H.
Qed.

Lemma queries_spaced (interval : Z) (n : nat) :
  queries (spaced_queries interval n) = S n.
Proof.
  induction n as [|n IH]; [reflexivity|].
  unfold queries in *. simpl. rewrite IH. reflexivity.
Qed.

Section Run.

(** The arguments of one call of [getMultipleReadings] and the time at
    which its promise is resolved. *)
Variables count interval now : Z.

(** A failure met before the run is complete rejects on the spot. *)
Lemma getReading_fail (fixes : list GeolocationPosition) :
  forall (readings : list Reading.t) (c : Z)
         (error : GeolocationPositionError) (rest : list response),
    Z.of_nat (length fixes) < Z.max 1 (count - c) ->
    GeolocationAPI.getReading count interval now readings c
      (map Fix fixes ++ Fail error :: rest)
    = {| GeolocationAPI.settled := Rejected (PositionError error);
         GeolocationAPI.issued := spaced_queries interval (length fixes) |}.
Proof.
  induction fixes as [|p fixes IH]; intros readings c error rest Hlen.
  - reflexivity.
  - cbn [map app GeolocationAPI.getReading length spaced_queries].
    cbn [length] in Hlen.
    destruct (Z.geb_spec (c + 1) count) as [Hge|Hlt]; [lia|].
    rewrite IH by lia. reflexivity.
Qed.

(** A resolved run has consumed [max 1 count] fixes, one per query, and
    its result is built from exactly those. *)
Lemma getReading_resolved (script : list response) :
  forall (readings : list Reading.t) (c : Z) (r : Averaged.t),
    GeolocationAPI.settled
      (GeolocationAPI.getReading count interval now readings c script)
    = Resolved r ->
    exists fixes rest,
      script = map Fix fixes ++ rest
      /\ Z.of_nat (length fixes) = Z.max 1 (count - c)
      /\ Averaged.readings r = readings ++ map GeolocationAPI.toReading fixes
      /\ Averaged.lat r = GeolocationAPI.average Reading.lat (Averaged.readings r)
      /\ Averaged.lng r = GeolocationAPI.average Reading.lng (Averaged.readings r)
      /\ Averaged.accuracy r
         = GeolocationAPI.average Reading.accuracy (Averaged.readings r)
      /\ GeolocationAPI.issued
           (GeolocationAPI.getReading count interval now readings c script)
         = spaced_queries interval (Nat.pred (length fixes)).
Proof.
  induction script as [|[p|e] script IH]; intros readings c r;
    cbn [GeolocationAPI.getReading GeolocationAPI.settled].
  - discriminate.
  - destruct (Z.geb_spec (c + 1) count) as [Hge|Hlt];
      cbn [GeolocationAPI.settled GeolocationAPI.issued].
    + intros [= <-]. exists [p], script.
      cbn [map app length Averaged.readings Averaged.lat Averaged.lng
           Averaged.accuracy Nat.pred spaced_queries].
      repeat split; try reflexivity. lia.
    + intros Hr. destruct (IH _ _ _ Hr)
        as (fixes & rest & -> & Hlen & Hrs & Hlat & Hlng & Hacc & Hiss).
      exists (p :: fixes), rest.
      rewrite Hrs, <- app_assoc in *. cbn [map app length].
      repeat split; try assumption; try lia.
      rewrite Hiss. destruct fixes; [simpl in Hlen; lia|reflexivity].
  - discriminate.
Qed.

End Run.

(** C4, as stated, fails in two ways.  For a count that is not positive
    the run still makes one query, and on its success resolves with one
    sample, which is not [count] samples.  And the averaged fields are
    computed in double arithmetic, which rounds after each operation: three
    samples of accuracy 12.3 (a double) have 12.3 as their arithmetic mean
    and are averaged to the next double above it. *)
Lemma averaged_result_counterexample :
  (exists run r,
     returned (GeolocationAPI.getMultipleReadings (Some 0) None 1700000000500
                 [Fix (Fixtures.fix_at 10 20 5)] Fixtures.https_page)
     = Some run
     /\ GeolocationAPI.settled run = Resolved r
     /\ length (Averaged.readings r) = 1%nat
     /\ Z.of_nat (length (Averaged.readings r)) <> 0)
  /\ (let a := literal (123 # 10) in
      let fixes := [Fixtures.fix_at 10 20 a; Fixtures.fix_at 10 20 a;
                    Fixtures.fix_at 10 20 a] in
      exists run r,
        returned (GeolocationAPI.getMultipleReadings (Some 3) None
                    1700000004500 (map Fix fixes) Fixtures.https_page)
        = Some run
        /\ GeolocationAPI.settled run = Resolved r
        /\ is_double a
        /\ (mean (map (fun p => accuracy (coords p)) fixes) == a)%Q
        /\ (a < Averaged.accuracy r)%Q
        /\ ~ (Averaged.accuracy r
              == mean (map (fun p => accuracy (coords p)) fixes))%Q).
Proof.
  split.
  - eexists. eexists.
    split; [reflexivity|]. split; [reflexivity|].
    split; [reflexivity|]. simpl. discriminate.
  - cbv zeta. eexists. eexists.
    split; [reflexivity|]. split; [reflexivity|].
    split; [vm_compute; reflexivity|].
    split; [vm_compute; reflexivity|].
    split; [vm_compute; reflexivity|].
    vm_compute. discriminate.
Qed.

(** C4, amended.  For every successful run of [getMultipleReadings] the
    samples of the result are all the samples collected, in collection
    order, one per query made: [count] of them (3 when [count] is omitted)
    when [count] is at least 1, and a single one otherwise; the latitude,
    longitude and accuracy of the result are the means of those fields over
    the collected samples as double arithmetic yields them: the fields
    added in collection order starting from 0 and the sum divided by the
    number of samples, each operation rounded to the nearest double.  Each
    is the arithmetic mean of its field whenever none of these operations
    rounds. *)
Theorem averaged_result_is_rounded_mean
    (count interval : option Z) (now : Z) (script : list response) (w : World)
    (run : GeolocationAPI.Run) (r : Averaged.t) :
  returned (GeolocationAPI.getMultipleReadings count interval now script w)
  = Some run ->
  GeolocationAPI.settled run = Resolved r ->
  exists fixes rest,
    script = map Fix fixes ++ rest
    /\ Z.of_nat (length fixes) = Z.max 1 (default 3 count)
    /\ queries (GeolocationAPI.issued run) = length fixes
    /\ Averaged.readings r = map GeolocationAPI.toReading fixes
    /\ let lats := map (fun p => latitude (coords p)) fixes in
       let lngs := map (fun p => longitude (coords p)) fixes in
       let accs := map (fun p => accuracy (coords p)) fixes in
       Averaged.lat r = rounded_mean lats
       /\ Averaged.lng r = rounded_mean lngs
       /\ Averaged.accuracy r = rounded_mean accs
       /\ (summed_exactly lats -> (Averaged.lat r == mean lats)%Q)
       /\ (summed_exactly lngs -> (Averaged.lng r == mean lngs)%Q)
       /\ (summed_exactly accs -> (Averaged.accuracy r == mean accs)%Q).
Proof.
  unfold returned, GeolocationAPI.getMultipleReadings, bind, get, ret.
  destruct (geolocation w) as [g|]; cbn [fst].
  - intros [= <-] Hr.
    destruct (getReading_resolved _ _ _ _ _ _ _ Hr)
      as (fixes & rest & Hscript & Hlen & Hrs & Hlat & Hlng & Hacc & Hiss).
    exists fixes, rest. cbn [app] in Hrs.
    split; [exact Hscript|]. split; [lia|]. split.
    { rewrite Hiss, queries_spaced. destruct fixes; [simpl in Hlen; lia|reflexivity]. }
    split; [exact Hrs|]. cbv zeta.
    rewrite Hlat, Hlng, Hacc, Hrs, !average_rounded_mean, !map_map.
    cbn [GeolocationAPI.toReading Reading.lat Reading.lng Reading.accuracy].
    split; [reflexivity|]. split; [reflexivity|]. split; [reflexivity|].
    split; [|split]; apply rounded_mean_exact.
  - intros [= <-]. discriminate.
Qed.

Lemma averaged_result_is_rounded_mean_witness :
  exists run r,
    returned (GeolocationAPI.getMultipleReadings None None 1700000004500
                (map Fix Fixtures.three_fixes) Fixtures.https_page) = Some run
    /\ GeolocationAPI.settled run = Resolved r
    /\ Averaged.readings r = map GeolocationAPI.toReading Fixtures.three_fixes
    /\ queries (GeolocationAPI.issued run) = 3%nat
    /\ Averaged.lat r
       = rounded_mean [10%Q; literal (10001 # 1000); literal (9999 # 1000)]
    /\ (Averaged.accuracy r == mean [5; 7; 6])%Q.
Proof.
  eexists. eexists. split; [reflexivity|]. split; [reflexivity|].
  destruct (averaged_result_is_rounded_mean None None 1700000004500
              (map Fix Fixtures.three_fixes) Fixtures.https_page _ _
              eq_refl eq_refl)
    as (fixes & rest & Hscript & Hlen & Hq & Hrs & Hlat & _ & _ & _ & _ & Hacc).
  assert (Hfixes : fixes = Fixtures.three_fixes).
  { destruct fixes as [|p1 [|p2 [|p3 [|p4 fixes]]]];
      cbn [length] in Hlen; try (cbn in Hlen; lia).
    cbn [map app Fixtures.three_fixes] in Hscript.
    injection Hscript as <- <- <- _. reflexivity. }
  subst fixes.
  split; [exact Hrs|]. split; [exact Hq|]. split; [exact Hlat|].
  apply Hacc. split.
  - intros k Hk. cbn [map length Fixtures.three_fixes] in Hk.
    destruct k as [|[|[|[|k]]]]; [vm_compute; reflexivity ..|lia].
  - vm_compute. reflexivity.
Defined.

(** The averaging example: the three fixes nearest to (10, 20),
    (10.001, 20.001) and (9.999, 19.999), with accuracies 5, 7 and 6, are
    averaged to (10, 20) with accuracy 6: here no rounding is left in the
    result. *)
Example three_fixes_average :
  exists run r,
    returned (GeolocationAPI.getMultipleReadings (Some 3) (Some 2000)
                1700000004500 (map Fix Fixtures.three_fixes)
                Fixtures.https_page) = Some run
    /\ GeolocationAPI.settled run = Resolved r
    /\ (Averaged.lat r == 10)%Q /\ (Averaged.lng r == 20)%Q
    /\ (Averaged.accuracy r == 6)%Q
    /\ length (Averaged.readings r) = 3%nat.
Proof.
  eexists. eexists. split; [reflexivity|]. split; [reflexivity|].
  repeat split; vm_compute; reflexivity.
Qed.

(** C5.  When a query of [getMultipleReadings] fails, the promise is
    rejected with the platform's error itself, the failed query is the
    last platform call of the run whatever answers would have followed, and
    the promise is not resolved with an average of the samples collected
    before. *)
Theorem failed_query_rejects_unchanged
    (count interval : option Z) (now : Z) (fixes : list GeolocationPosition)
    (error : GeolocationPositionError) (rest : list response) (w : World) :
  geolocation w <> None ->
  Z.of_nat (length fixes) < Z.max 1 (default 3 count) ->
  exists run,
    GeolocationAPI.getMultipleReadings count interval now
      (map Fix fixes ++ Fail error :: rest) w = (Normal run, w)
    /\ GeolocationAPI.settled run = Rejected (PositionError error)
    /\ GeolocationAPI.issued run
       = spaced_queries (default 2000 interval) (length fixes)
    /\ queries (GeolocationAPI.issued run) = S (length fixes)
    /\ (forall r, GeolocationAPI.settled run <> Resolved r).
Proof.
  intros Hw Hlen.
  unfold GeolocationAPI.getMultipleReadings, bind, get, ret.
  destruct (geolocation w) as [g|]; [|congruence].
  rewrite getReading_fail by lia.
  eexists. split; [reflexivity|].
  cbn [GeolocationAPI.settled GeolocationAPI.issued].
  rewrite queries_spaced. repeat split. intros r H. discriminate H.
Qed.

Lemma failed_query_rejects_unchanged_witness :
  exists run,
    GeolocationAPI.getMultipleReadings (Some 3) (Some 2000) 1700000004500
      (map Fix [Fixtures.fix_at 10 20 5]
         ++ Fail (Fixtures.platform_error TIMEOUT)
         :: [Fix (Fixtures.fix_at 10 20 6)])
      Fixtures.https_page
    = (Normal run, Fixtures.https_page)
    /\ GeolocationAPI.settled run
       = Rejected (PositionError (Fixtures.platform_error TIMEOUT))
    /\ GeolocationAPI.issued run = spaced_queries 2000 1
    /\ queries (GeolocationAPI.issued run) = 2%nat
    /\ (forall r, GeolocationAPI.settled run <> Resolved r).
Proof.
  apply (failed_query_rejects_unchanged (Some 3) (Some 2000) 1700000004500
           [Fixtures.fix_at 10 20 5] (Fixtures.platform_error TIMEOUT)
           [Fix (Fixtures.fix_at 10 20 6)] Fixtures.https_page).
  - simpl. discriminate.
  - simpl. lia.
Defined.

(** C10, as stated, fails in a browser without [navigator.geolocation]:
    with a count that is not positive the run makes no query at all there,
    and its promise is rejected with the [TypeError] of the first call. *)
Lemma nonpositive_count_without_capability :
  exists run,
    returned (GeolocationAPI.getMultipleReadings (Some 0) None 1700000000500
                [Fix (Fixtures.fix_at 10 20 5)] Fixtures.no_geolocation)
    = Some run
    /\ queries (GeolocationAPI.issued run) = 0%nat
    /\ queries (GeolocationAPI.issued run) <> 1%nat
    /\ GeolocationAPI.settled run = Rejected TypeError.
Proof.
  eexists. split; [reflexivity|].
  split; [reflexivity|]. split; [discriminate|reflexivity].
Qed.

(** C10, amended.  With a count that is not positive, and
    [navigator.geolocation] present, [getMultipleReadings] makes exactly one
    query, and when that query succeeds the promise is resolved with that
    one sample as the whole sequence of samples and, its latitude, longitude
    and accuracy being doubles, as the averaged latitude, longitude and
    accuracy.  Without [navigator.geolocation] it makes no query and the
    promise is rejected with a [TypeError]. *)
Theorem nonpositive_count_single_query
    (count : Z) (interval : option Z) (now : Z) (script : list response)
    (w : World) :
  count <= 0 ->
  exists run,
    GeolocationAPI.getMultipleReadings (Some count) interval now script w
    = (Normal run, w)
    /\ (geolocation w = None ->
        GeolocationAPI.issued run = []
        /\ GeolocationAPI.settled run = Rejected TypeError)
    /\ (geolocation w <> None ->
        queries (GeolocationAPI.issued run) = 1%nat
        /\ forall position rest,
             script = Fix position :: rest ->
             exists r,
               GeolocationAPI.settled run = Resolved r
               /\ Averaged.readings r = [GeolocationAPI.toReading position]
               /\ length (Averaged.readings r) = 1%nat
               /\ (is_double (latitude (coords position)) ->
                   (Averaged.lat r == latitude (coords position))%Q)
               /\ (is_double (longitude (coords position)) ->
                   (Averaged.lng r == longitude (coords position))%Q)
               /\ (is_double (accuracy (coords position)) ->
                   (Averaged.accuracy r == accuracy (coords position))%Q)).
Proof.
  intros Hcount.
  unfold GeolocationAPI.getMultipleReadings, bind, get, ret.
  destruct (geolocation w) as [g|].
  2:{ eexists. split; [reflexivity|]. split; [|congruence].
      intros _. split; reflexivity. }
  eexists. split; [reflexivity|]. split; [discriminate|]. intros _.
  change (default 3 (Some count)) with count.
  destruct script as [|[p|e] script];
    cbn [GeolocationAPI.getReading app].
  - split; [reflexivity|]. intros position rest H. discriminate H.
  - destruct (Z.geb_spec (0 + 1) count) as [_|Hlt]; [|lia].
    split; [reflexivity|]. intros position rest [= <- <-].
    eexists. split; [reflexivity|].
    cbn [GeolocationAPI.settled Averaged.readings Averaged.lat Averaged.lng
         Averaged.accuracy].
    split; [reflexivity|]. split; [reflexivity|].
    rewrite !average_rounded_mean. cbn [map GeolocationAPI.toReading
      Reading.lat Reading.lng Reading.accuracy].
    split; [|split]; apply rounded_mean_single.
  - split; [reflexivity|]. intros position rest H. discriminate H.
Qed.

Lemma nonpositive_count_single_query_witness :
  exists run r,
    GeolocationAPI.getMultipleReadings (Some (-2)) None 1700000000500
      (map Fix Fixtures.three_fixes) Fixtures.https_page
    = (Normal run, Fixtures.https_page)
    /\ queries (GeolocationAPI.issued run) = 1%nat
    /\ GeolocationAPI.settled run = Resolved r
    /\ Averaged.readings r
       = [GeolocationAPI.toReading (Fixtures.fix_at 10 20 5)]
    /\ (Averaged.lat r == 10)%Q
    /\ (Averaged.lng r == 20)%Q
    /\ (Averaged.accuracy r == 5)%Q.
Proof.
  destruct (nonpositive_count_single_query (-2) None 1700000000500
              (map Fix Fixtures.three_fixes) Fixtures.https_page)
    as (run & Hrun & _ & Hsome); [lia|].
  destruct Hsome as (Hq & Hfix); [simpl; discriminate|].
  destruct (Hfix (Fixtures.fix_at 10 20 5)
              (map Fix (tl Fixtures.three_fixes)) eq_refl)
    as (r & Hr & Hrs & _ & Hlat & Hlng & Hacc).
  exists run, r.
  split; [exact Hrun|]. split; [exact Hq|]. split; [exact Hr|].
  split; [exact Hrs|].
  split; [apply Hlat; vm_compute; reflexivity|].
  split; [apply Hlng; vm_compute; reflexivity|].
  apply Hacc; vm_compute; reflexivity.
Defined.

(* ===================================================================== *)
(** ** The watch interface *)

Lemma set_geolocation_same (w : World) (g : Geolocation) :
  geolocation w = Some g -> set_geolocation g w = w.
Proof. destruct w as [l o]. simpl. intros ->. reflexivity. Qed.

Lemma clearWatch_absent (g : Geolocation) (id : Z) :
  watches g !! id = None -> Platform.clearWatch id g = g.
Proof.
  intros H. destruct g as [m n]. unfold Platform.clearWatch. simpl in *.
  rewrite delete_id by exact H. reflexivity.
Qed.

(** C8.  [watchPosition] without the positioning capability completes
    normally, returns [null] and has called the error callback exactly
    once, and nothing is delivered afterwards; [clearWatch] with [null]
    does nothing at all; with the identifier of a subscription that is no
    longer registered it completes normally and cancels nothing, the
    browser state being what it was; and a second [clearWatch] with the
    same identifier changes nothing more. *)
Theorem watch_interface_never_throws :
  (forall w : World,
      geolocation w = None ->
      GeolocationAPI.watchPosition w
      = (Normal {| GeolocationAPI.handle := Null;
                   GeolocationAPI.invoked :=
                     [GeolocationAPI.ErrorCallback
                        GeolocationAPI.not_supported] |}, w)
      /\ forall id r, GeolocationAPI.deliver id r w = [])
  /\ (forall w : World, GeolocationAPI.clearWatch Null w = (Normal tt, w))
  /\ (forall (w : World) (g : Geolocation) (id : Z),
        geolocation w = Some g ->
        watches g !! id = None ->
        GeolocationAPI.clearWatch (Num id) w = (Normal tt, w))
  /\ (forall (w : World) (h : value),
        geolocation w <> None ->
        exists w1,
          GeolocationAPI.clearWatch h w = (Normal tt, w1)
          /\ GeolocationAPI.clearWatch h w1 = (Normal tt, w1)).
Proof.
  split; [|split; [|split]].
  - intros w Hw. split.
    + unfold GeolocationAPI.watchPosition, bind, get, ret. rewrite Hw.
      reflexivity.
    + intros id r. unfold GeolocationAPI.deliver. rewrite Hw. reflexivity.
  - intros w. reflexivity.
  - intros w g id Hw Hid.
    unfold GeolocationAPI.clearWatch, bind, get, put, ret.
    destruct (truthy (Num id)); [|reflexivity].
    rewrite Hw, clearWatch_absent by exact Hid.
    rewrite set_geolocation_same by exact Hw. reflexivity.
  - intros w h Hw.
    destruct (geolocation w) as [g|] eqn:Hg; [|congruence].
    unfold GeolocationAPI.clearWatch, bind, get, put, ret.
    destruct (truthy h); [|exists w; split; reflexivity].
    destruct h as [| |id]; try (exists w; split; reflexivity).
    rewrite Hg. eexists. split; [reflexivity|].
    cbn [geolocation set_geolocation].
    rewrite clearWatch_absent.
    + reflexivity.
    + simpl. apply lookup_delete_eq.
Qed.

Lemma watch_interface_never_throws_witness :
  GeolocationAPI.watchPosition Fixtures.no_geolocation
  = (Normal {| GeolocationAPI.handle := Null;
               GeolocationAPI.invoked :=
                 [GeolocationAPI.ErrorCallback
                    "Geolocation is not supported by this browser"] |},
     Fixtures.no_geolocation)
  /\ GeolocationAPI.clearWatch (Num 7) Fixtures.watching_page
     = (Normal tt, Fixtures.watching_page)
  /\ exists w1,
       GeolocationAPI.clearWatch (Num 1) Fixtures.watching_page = (Normal tt, w1)
       /\ GeolocationAPI.clearWatch (Num 1) w1 = (Normal tt, w1).
Proof.
  destruct watch_interface_never_throws as (Habsent & _ & Hgone & Htwice).
  split; [|split].
  - apply (Habsent Fixtures.no_geolocation). reflexivity.
  - apply (Hgone Fixtures.watching_page _ 7 eq_refl). reflexivity.
  - apply (Htwice Fixtures.watching_page (Num 1)). simpl. discriminate.
Defined.

(* ===================================================================== *)
(** ** The tracking session *)

Lemma initial_inv (w : World) :
  (forall g, geolocation w = Some g -> watches g = ∅ /\ 0 < nextId g) ->
  session_inv MapView.initial w.
Proof.
  intros H. unfold session_inv.
  destruct (geolocation w) as [g|]; [|reflexivity].
  destruct (H g eq_refl) as [He Hn]. split; assumption.
Qed.

(** Under the invariant, a truthy identifier is a registered one. *)
Lemma inv_truthy (s : MapView.State) (w : World) :
  session_inv s w ->
  truthy (MapView.watchId s) = true ->
  exists g h,
    geolocation w = Some g /\ MapView.watchId s = Num h /\ h <> 0
    /\ 0 < nextId g /\ watches g = {[ h := GeolocationAPI.watchOptions ]}.
Proof.
  unfold session_inv. intros Hinv Ht.
  destruct (geolocation w) as [g|].
  - destruct Hinv as [Hn Hw].
    destruct (MapView.watchId s) as [| |h]; try discriminate Ht.
    destruct Hw as [Hh Hw]. exists g, h. repeat split; assumption.
  - rewrite Hinv in Ht. discriminate Ht.
Qed.

Lemma inv_falsy (s : MapView.State) (w : World) (g : Geolocation) :
  session_inv s w ->
  truthy (MapView.watchId s) = false ->
  geolocation w = Some g ->
  0 < nextId g /\ watches g = ∅.
Proof.
  unfold session_inv. intros Hinv Ht Hg. rewrite Hg in Hinv.
  destruct Hinv as [Hn Hw]. split; [exact Hn|].
  destruct (MapView.watchId s) as [| |h]; try exact Hw.
  destruct Hw as [Hh _]. simpl in Ht.
  destruct (Z.eqb_spec h 0); [contradiction|discriminate Ht].
Qed.

Lemma start_active (s : MapView.State) (w : World) :
  truthy (MapView.watchId s) = true ->
  MapView.startAutoTracking s w = (Normal (Undefined, s), w).
Proof. intros H. unfold MapView.startAutoTracking. rewrite H. reflexivity. Qed.

Lemma stop_idle (s : MapView.State) (w : World) :
  truthy (MapView.watchId s) = false ->
  MapView.stopAutoTracking s w = (Normal (Undefined, s), w).
Proof. intros H. unfold MapView.stopAutoTracking. rewrite H. reflexivity. Qed.

(** Every handler completes normally, keeps the invariant and leaves the
    capability as it is. *)
Lemma handler_inv (a : MapView.action) (s : MapView.State) (w : World) :
  session_inv s w ->
  exists s' w',
    MapView.handler a s w = (Normal (Undefined, s'), w')
    /\ session_inv s' w'
    /\ (geolocation w <> None -> geolocation w' <> None).
Proof.
  intros Hinv. destruct a; cbn [MapView.handler].
  - destruct (truthy (MapView.watchId s)) eqn:Ht.
    + exists s, w. split; [apply start_active; exact Ht|]. split; [exact Hinv|tauto].
    + unfold MapView.startAutoTracking. rewrite Ht.
      unfold GeolocationAPI.watchPosition, bind, get, put, ret.
      destruct (geolocation w) as [g|] eqn:Hg.
      * destruct (inv_falsy s w g Hinv Ht Hg) as [Hn He].
        cbn [Platform.watchPosition GeolocationAPI.invoked
             GeolocationAPI.handle fold_left].
        eexists. eexists. split; [reflexivity|]. split; [|intros _; discriminate].
        unfold session_inv.
        cbn [geolocation set_geolocation nextId watches MapView.watchId
             MapView.setWatchId MapView.setIsTracking].
        split; [lia|]. split; [lia|].
        rewrite He. apply insert_empty.
      * eexists. eexists. split; [reflexivity|]. split; [|congruence].
        unfold session_inv. rewrite Hg. reflexivity.
  - destruct (truthy (MapView.watchId s)) eqn:Ht.
    + destruct (inv_truthy s w Hinv Ht) as (g & h & Hg & Hid & Hh & Hn & Hw).
      unfold MapView.stopAutoTracking, GeolocationAPI.clearWatch.
      rewrite Ht, Hid. unfold bind, get, put, ret. rewrite Hg.
      eexists. eexists. split; [reflexivity|]. split; [|intros _; discriminate].
      unfold session_inv.
      cbn [geolocation set_geolocation Platform.clearWatch nextId watches
           MapView.watchId MapView.setWatchId MapView.setIsTracking
           MapView.setLocationStatus].
      split; [exact Hn|]. rewrite Hw. apply delete_singleton_eq.
    + exists s, w. split; [apply stop_idle; exact Ht|]. split; [exact Hinv|tauto].
Qed.

Lemma run_inv (actions : list MapView.action) :
  forall (s : MapView.State) (w : World),
    session_inv s w ->
    exists s' w',
      MapView.run actions s w = (Normal s', w')
      /\ session_inv s' w'
      /\ (geolocation w <> None -> geolocation w' <> None).
Proof.
  induction actions as [|a actions IH]; intros s w Hinv.
  - exists s, w. split; [reflexivity|]. split; [exact Hinv|tauto].
  - destruct (handler_inv a s w Hinv) as (s1 & w1 & Hstep & Hinv1 & Hcap1).
    destruct (IH s1 w1 Hinv1) as (s2 & w2 & Hrun & Hinv2 & Hcap2).
    exists s2, w2. split; [|split; [exact Hinv2|tauto]].
    cbn [MapView.run]. unfold bind. rewrite Hstep. exact Hrun.
Qed.

(** With the capability present a start leaves an identifier set. *)
Lemma start_sets_identifier (s : MapView.State) (w : World) :
  session_inv s w ->
  geolocation w <> None ->
  exists s' w',
    MapView.startAutoTracking s w = (Normal (Undefined, s'), w')
    /\ session_inv s' w'
    /\ truthy (MapView.watchId s') = true.
Proof.
  intros Hinv Hcap.
  destruct (truthy (MapView.watchId s)) eqn:Ht.
  - exists s, w. split; [apply start_active; exact Ht|]. split; assumption.
  - destruct (handler_inv MapView.Start s w Hinv) as (s' & w' & Hstep & Hinv' & _).
    exists s', w'. split; [exact Hstep|]. split; [exact Hinv'|].
    cbn [MapView.handler] in Hstep. unfold MapView.startAutoTracking in Hstep.
    rewrite Ht in Hstep.
    unfold GeolocationAPI.watchPosition, bind, get, put, ret in Hstep.
    destruct (geolocation w) as [g|] eqn:Hg; [|congruence].
    destruct (inv_falsy s w g Hinv Ht Hg) as [Hn _].
    cbn [Platform.watchPosition GeolocationAPI.invoked GeolocationAPI.handle
         fold_left] in Hstep.
    injection Hstep as <- _. simpl.
    destruct (Z.eqb_spec (nextId g) 0); [lia|reflexivity].
Qed.

Lemma inv_subscriptions (s : MapView.State) (w : World) :
  session_inv s w ->
  subscriptions w = (if truthy (MapView.watchId s) then 1 else 0)%nat.
Proof.
  intros Hinv. destruct (truthy (MapView.watchId s)) eqn:Ht.
  - destruct (inv_truthy s w Hinv Ht) as (g & h & Hg & _ & _ & _ & Hw).
    unfold subscriptions. rewrite Hg, Hw. apply map_size_singleton.
  - unfold subscriptions. destruct (geolocation w) as [g|] eqn:Hg; [|reflexivity].
    destruct (inv_falsy s w g Hinv Ht Hg) as [_ He].
    rewrite He. apply map_size_empty.
Qed.

(** C7, as stated, fails on what [start] returns: in the state reached by
    one start, where the identifier 1 is held, a second start returns
    [undefined], not the identifier. *)
Lemma start_while_active_returns_undefined :
  MapView.run [MapView.Start] MapView.initial Fixtures.https_page
  = (Normal Fixtures.tracking, Fixtures.watching_page)
  /\ MapView.watchId Fixtures.tracking = Num 1
  /\ exists v,
       MapView.startAutoTracking Fixtures.tracking Fixtures.watching_page
       = (Normal (v, Fixtures.tracking), Fixtures.watching_page)
       /\ v = Undefined
       /\ v <> MapView.watchId Fixtures.tracking.
Proof.
  split; [reflexivity|]. split; [reflexivity|].
  exists Undefined. split; [reflexivity|]. split; [reflexivity|].
  simpl. discriminate.
Qed.

(** C7, amended.  With the platform handing out identifiers from a positive
    counter and each handler running on the state the previous one left, a
    session started with no subscription holds at most one subscription
    after every sequence of starts and stops, and holds one exactly when
    its identifier is set; two starts in a row from there leave the one
    subscription and the state that one start leaves.  A start while an
    identifier is set changes neither the component state nor the
    platform, so it keeps the existing identifier and registers no second
    subscription, and it returns nothing; a stop while no identifier is set
    changes nothing either and completes normally. *)
Theorem session_holds_one_subscription
    (actions : list MapView.action) (w0 : World) :
  (forall g, geolocation w0 = Some g -> watches g = ∅ /\ 0 < nextId g) ->
  (exists s w,
      MapView.run actions MapView.initial w0 = (Normal s, w)
      /\ (subscriptions w <= 1)%nat
      /\ (subscriptions w = 1%nat <-> truthy (MapView.watchId s) = true)
      /\ (geolocation w0 <> None ->
          exists s1 w1,
            MapView.run [MapView.Start] s w = (Normal s1, w1)
            /\ MapView.run [MapView.Start; MapView.Start] s w = (Normal s1, w1)
            /\ subscriptions w1 = 1%nat))
  /\ (forall s w,
        truthy (MapView.watchId s) = true ->
        MapView.startAutoTracking s w = (Normal (Undefined, s), w))
  /\ (forall s w,
        truthy (MapView.watchId s) = false ->
        MapView.stopAutoTracking s w = (Normal (Undefined, s), w)).
Proof.
  intros Hinit. split; [|split].
  - destruct (run_inv actions MapView.initial w0 (initial_inv w0 Hinit))
      as (s & w & Hrun & Hinv & Hcap).
    exists s, w. split; [exact Hrun|].
    pose proof (inv_subscriptions s w Hinv) as Hsub.
    split; [|split].
    + rewrite Hsub. destruct (truthy (MapView.watchId s)); lia.
    + rewrite Hsub. destruct (truthy (MapView.watchId s)); split; intros H;
        try reflexivity; discriminate H.
    + intros Hw0.
      destruct (start_sets_identifier s w Hinv (Hcap Hw0))
        as (s1 & w1 & Hstart & Hinv1 & Ht1).
      exists s1, w1.
      cbn [MapView.run MapView.handler]. unfold bind, ret.
      rewrite Hstart. cbn [snd]. rewrite (start_active s1 w1 Ht1). cbn [snd].
      split; [reflexivity|]. split; [reflexivity|].
      rewrite (inv_subscriptions s1 w1 Hinv1), Ht1. reflexivity.
  - apply start_active.
  - apply stop_idle.
Qed.

Lemma session_holds_one_subscription_witness :
  exists s w,
    MapView.run [MapView.Start; MapView.Stop; MapView.Stop]
      MapView.initial Fixtures.https_page = (Normal s, w)
    /\ (subscriptions w <= 1)%nat
    /\ (subscriptions w = 1%nat <-> truthy (MapView.watchId s) = true)
    /\ (geolocation Fixtures.https_page <> None ->
        exists s1 w1,
          MapView.run [MapView.Start] s w = (Normal s1, w1)
          /\ MapView.run [MapView.Start; MapView.Start] s w = (Normal s1, w1)
          /\ subscriptions w1 = 1%nat).
Proof.
  apply (session_holds_one_subscription
           [MapView.Start; MapView.Stop; MapView.Stop] Fixtures.https_page).
  intros g [= <-]. split; [reflexivity|]. simpl. lia.
Defined.

(* ===================================================================== *)
(** ** The message rules of the analysis *)

Lemma gtb_gt (x y : number) : gtb x y = true <-> (y < x)%Q.
Proof. apply ltb_lt. Qed.

Lemma gtb_le (x y : number) : gtb x y = false <-> (x <= y)%Q.
Proof. apply ltb_ge. Qed.

Ltac block_appends :=
  intros x; block_cases;
  cbn [Analysis.warnings Analysis.info Analysis.recommendations
       Analysis.push_warning Analysis.push_info Analysis.push_recommendation
       Messages.blank app];
  rewrite ?app_nil_r, <- ?app_assoc; repeat split; reflexivity.

Lemma accuracy_analysis_appends (a : number) :
  appends (GeolocationAPI.accuracy_analysis a).
Proof. unfold GeolocationAPI.accuracy_analysis. block_appends. Qed.

Lemma altitude_analysis_appends (alt altAcc : option number) :
  appends (GeolocationAPI.altitude_analysis alt altAcc).
Proof. unfold GeolocationAPI.altitude_analysis. block_appends. Qed.

Lemma speed_analysis_appends (speed : option number) :
  appends (GeolocationAPI.speed_analysis speed).
Proof. unfold GeolocationAPI.speed_analysis. block_appends. Qed.

Lemma heading_analysis_appends (heading : option number_or_NaN) :
  appends (GeolocationAPI.heading_analysis heading).
Proof. unfold GeolocationAPI.heading_analysis. block_appends. Qed.

Lemma environment_recommendations_appends (a : number) :
  appends (GeolocationAPI.environment_recommendations a).
Proof. unfold GeolocationAPI.environment_recommendations. block_appends. Qed.

Lemma browser_recommendations_appends (protocol : string) :
  appends (GeolocationAPI.browser_recommendations protocol).
Proof. unfold GeolocationAPI.browser_recommendations. block_appends. Qed.

(** The lists a block never pushes on. *)
Ltac block_silent := block_cases; repeat split; reflexivity.

Lemma altitude_analysis_silent (alt altAcc : option number) :
  Analysis.info (GeolocationAPI.altitude_analysis alt altAcc Messages.blank) = []
  /\ Analysis.recommendations
       (GeolocationAPI.altitude_analysis alt altAcc Messages.blank) = [].
Proof. unfold GeolocationAPI.altitude_analysis. block_silent. Qed.

Lemma speed_analysis_silent (speed : option number) :
  Analysis.warnings (GeolocationAPI.speed_analysis speed Messages.blank) = []
  /\ Analysis.recommendations
       (GeolocationAPI.speed_analysis speed Messages.blank) = [].
Proof. unfold GeolocationAPI.speed_analysis. block_silent. Qed.

Lemma heading_analysis_silent (heading : option number_or_NaN) :
  Analysis.warnings (GeolocationAPI.heading_analysis heading Messages.blank) = []
  /\ Analysis.recommendations
       (GeolocationAPI.heading_analysis heading Messages.blank) = [].
Proof. unfold GeolocationAPI.heading_analysis. block_silent. Qed.

Lemma environment_recommendations_silent (a : number) :
  Analysis.warnings
    (GeolocationAPI.environment_recommendations a Messages.blank) = []
  /\ Analysis.info
       (GeolocationAPI.environment_recommendations a Messages.blank) = [].
Proof. unfold GeolocationAPI.environment_recommendations. block_silent. Qed.

Lemma browser_recommendations_silent (protocol : string) :
  Analysis.info
    (GeolocationAPI.browser_recommendations protocol Messages.blank) = [].
Proof. unfold GeolocationAPI.browser_recommendations. block_silent. Qed.

(** The three lists of an analysis, block by block. *)
Lemma analyze_lists (position : GeolocationPosition) (w : World) :
  exists r,
    GeolocationAPI.analyzeLocationAccuracy position w = (Normal r, w)
    /\ Analysis.warnings r
       = Analysis.warnings
           (GeolocationAPI.accuracy_analysis (accuracy (coords position))
              Messages.blank)
         ++ Analysis.warnings
              (GeolocationAPI.altitude_analysis (altitude (coords position))
                 (altitudeAccuracy (coords position)) Messages.blank)
         ++ Analysis.warnings
              (GeolocationAPI.browser_recommendations (protocol (location w))
                 Messages.blank)
    /\ Analysis.info r
       = Analysis.info
           (GeolocationAPI.accuracy_analysis (accuracy (coords position))
              Messages.blank)
         ++ Analysis.info
              (GeolocationAPI.speed_analysis (speed (coords position))
                 Messages.blank)
         ++ Analysis.info
              (GeolocationAPI.heading_analysis (heading (coords position))
                 Messages.blank)
    /\ Analysis.recommendations r
       = Analysis.recommendations
           (GeolocationAPI.accuracy_analysis (accuracy (coords position))
              Messages.blank)
         ++ Analysis.recommendations
              (GeolocationAPI.environment_recommendations
                 (accuracy (coords position)) Messages.blank)
         ++ Analysis.recommendations
              (GeolocationAPI.browser_recommendations (protocol (location w))
                 Messages.blank).
Proof.
  unfold GeolocationAPI.analyzeLocationAccuracy, bind, get, ret.
  eexists. split; [reflexivity|].
  pose proof (browser_recommendations_appends (protocol (location w))) as Hb.
  pose proof (environment_recommendations_appends (accuracy (coords position))) as He.
  pose proof (heading_analysis_appends (heading (coords position))) as Hh.
  pose proof (speed_analysis_appends (speed (coords position))) as Hs.
  pose proof (altitude_analysis_appends (altitude (coords position))
                (altitudeAccuracy (coords position))) as Hl.
  pose proof (accuracy_analysis_appends (accuracy (coords position))) as Ha.
  destruct (altitude_analysis_silent (altitude (coords position))
              (altitudeAccuracy (coords position))) as [Hl1 Hl2].
  destruct (speed_analysis_silent (speed (coords position))) as [Hs1 Hs2].
  destruct (heading_analysis_silent (heading (coords position))) as [Hh1 Hh2].
  destruct (environment_recommendations_silent (accuracy (coords position)))
    as [He1 He2].
  pose proof (browser_recommendations_silent (protocol (location w))) as Hb1.
  repeat split.
  - rewrite (proj1 (Hb _)), (proj1 (He _)), (proj1 (Hh _)), (proj1 (Hs _)),
      (proj1 (Hl _)), (proj1 (Ha _)), He1, Hh1, Hs1.
    cbn [Analysis.warnings app]. rewrite !app_nil_r, <- !app_assoc. reflexivity.
  - rewrite (proj1 (proj2 (Hb _))), (proj1 (proj2 (He _))),
      (proj1 (proj2 (Hh _))), (proj1 (proj2 (Hs _))), (proj1 (proj2 (Hl _))),
      (proj1 (proj2 (Ha _))), Hb1, He2, Hl1.
    cbn [Analysis.info app]. rewrite !app_nil_r, <- !app_assoc. reflexivity.
  - rewrite (proj2 (proj2 (Hb _))), (proj2 (proj2 (He _))),
      (proj2 (proj2 (Hh _))), (proj2 (proj2 (Hs _))), (proj2 (proj2 (Hl _))),
      (proj2 (proj2 (Ha _))), Hh2, Hs2, Hl2.
    cbn [Analysis.recommendations app]. rewrite !app_nil_r, <- !app_assoc.
    reflexivity.
Qed.

(** Decides every test of the blocks in the goal, each turned into the
    order fact it stands for, and computes the lists. *)
Ltac decide_blocks :=
  unfold GeolocationAPI.accuracy_analysis, GeolocationAPI.altitude_analysis,
    GeolocationAPI.speed_analysis, GeolocationAPI.heading_analysis,
    GeolocationAPI.environment_recommendations,
    GeolocationAPI.browser_recommendations;
  repeat match goal with
    | |- context [if gtb ?x ?y then _ else _] =>
        let E := fresh "E" in
        destruct (gtb x y) eqn:E; [apply gtb_gt in E | apply gtb_le in E]
    | |- context [match ?o with Some _ => _ | None => _ end] => destruct o
    | |- context [negb (String.eqb ?x ?y)] =>
        let E := fresh "E" in destruct (String.eqb_spec x y) as [E|E]
    end;
  cbn [Analysis.warnings Analysis.info Analysis.recommendations
       Analysis.push_warning Analysis.push_info Analysis.push_recommendation
       Messages.blank app negb].

(** Membership of a literal in a computed list, against order facts. *)
Ltac decide_member :=
  unfold Messages.very_poor, Messages.low, Messages.moderate, Messages.good,
    Messages.excellent, Messages.altitude_poor, Messages.moving,
    Messages.heading_is, GeolocationAPI.https_warning,
    GeolocationAPI.https_recommendation;
  cbn [In String.append];
  split;
  [ intros H; repeat (destruct H as [H|H]); try discriminate H;
    try contradiction; try (split; lra); try lra; auto
  | intros H;
    try match type of H with _ /\ _ => destruct H end;
    try (exfalso; lra); auto 8 ].

(** The accuracy message against the accuracy. *)
Lemma accuracy_message_ranges (position : GeolocationPosition) (w : World) :
  exists r,
    GeolocationAPI.analyzeLocationAccuracy position w = (Normal r, w)
    /\ Analysis.accuracyLevel r
       = GeolocationAPI.accuracyLevel (accuracy (coords position))
    /\ let a := accuracy (coords position) in
       (In Messages.very_poor (Analysis.warnings r) <-> (100 < a)%Q)
       /\ (In Messages.low (Analysis.warnings r) <-> (50 < a)%Q /\ (a <= 100)%Q)
       /\ (In Messages.moderate (Analysis.info r) <-> (20 < a)%Q /\ (a <= 50)%Q)
       /\ (In Messages.good (Analysis.info r) <-> (10 < a)%Q /\ (a <= 20)%Q)
       /\ (In Messages.excellent (Analysis.info r) <-> (a <= 10)%Q).
Proof.
  destruct (analyze_lists position w) as (r & Hrun & Hw & Hi & _).
  exists r. split; [exact Hrun|]. split.
  { destruct (analyze_completes position w) as (r' & Hrun' & _ & Hlevel).
    congruence. }
  cbv zeta. rewrite Hw, Hi.
  split; [|split; [|split; [|split]]]; decide_blocks; decide_member.
Qed.

(** X1.  The accuracy message of an analysis follows the accuracy with
    inclusive upper bounds: the "very poor" warning above 100, the "low"
    warning above 50 up to 100, the "moderate" note above 20 up to 50, the
    "good" note above 10 up to 20, and the "excellent" note up to 10. *)
Theorem accuracy_message_by_range (position : GeolocationPosition) (w : World) :
  exists r,
    GeolocationAPI.analyzeLocationAccuracy position w = (Normal r, w)
    /\ let a := accuracy (coords position) in
       (In Messages.very_poor (Analysis.warnings r) <-> (100 < a)%Q)
       /\ (In Messages.low (Analysis.warnings r) <-> (50 < a)%Q /\ (a <= 100)%Q)
       /\ (In Messages.moderate (Analysis.info r) <-> (20 < a)%Q /\ (a <= 50)%Q)
       /\ (In Messages.good (Analysis.info r) <-> (10 < a)%Q /\ (a <= 20)%Q)
       /\ (In Messages.excellent (Analysis.info r) <-> (a <= 10)%Q).
Proof.
  destruct (accuracy_message_ranges position w) as (r & Hrun & _ & H).
  exists r. split; assumption.
Qed.

(** X2.  Which lists of an analysis are empty: no recommendation exactly
    when the accuracy is at most 20 on an HTTPS page; no warning exactly
    when the accuracy is at most 50, the page is HTTPS and no altitude
    accuracy above 50 comes with an altitude; no note exactly when the
    accuracy is above 50, there is no heading and no positive speed. *)
Theorem analysis_empty_lists (position : GeolocationPosition) (w : World) :
  exists r,
    GeolocationAPI.analyzeLocationAccuracy position w = (Normal r, w)
    /\ let a := accuracy (coords position) in
       (Analysis.recommendations r = []
        <-> (a <= 20)%Q /\ protocol (location w) = "https:")
       /\ (Analysis.warnings r = []
           <-> (a <= 50)%Q /\ protocol (location w) = "https:"
               /\ (forall alt acc,
                      altitude (coords position) = Some alt ->
                      altitudeAccuracy (coords position) = Some acc ->
                      (acc <= 50)%Q))
       /\ (Analysis.info r = []
           <-> (50 < a)%Q /\ heading (coords position) = None
               /\ (forall s, speed (coords position) = Some s -> (s <= 0)%Q)).
Proof.
  destruct (analyze_lists position w) as (r & Hrun & Hw & Hi & Hr).
  exists r. split; [exact Hrun|]. cbv zeta. rewrite Hw, Hi, Hr.
  split; [|split]; decide_blocks;
    (split;
     [ intros H; try discriminate H;
       repeat split; try lra; try assumption; try reflexivity;
       intros; simplify_eq; lra
     | intros H; decompose [and] H; clear H; try reflexivity; exfalso;
       try lra; try congruence;
       repeat match goal with
         | K : forall _ _, Some ?x = Some _ -> Some ?y = Some _ -> _ |- _ =>
             specialize (K _ _ eq_refl eq_refl)
         | K : forall _, Some ?x = Some _ -> _ |- _ =>
             specialize (K _ eq_refl)
         end;
       lra ]).
Qed.

Lemma accuracyLevel_iff (a : number) :
  (GeolocationAPI.accuracyLevel a = tier_name Excellent <-> (a < 5)%Q)
  /\ (GeolocationAPI.accuracyLevel a = tier_name VeryHigh
      <-> (5 <= a)%Q /\ (a < 10)%Q)
  /\ (GeolocationAPI.accuracyLevel a = tier_name High
      <-> (10 <= a)%Q /\ (a < 20)%Q)
  /\ (GeolocationAPI.accuracyLevel a = tier_name Medium
      <-> (20 <= a)%Q /\ (a < 50)%Q)
  /\ (GeolocationAPI.accuracyLevel a = tier_name Low
      <-> (50 <= a)%Q /\ (a < 100)%Q)
  /\ (GeolocationAPI.accuracyLevel a = tier_name VeryLow <-> (100 <= a)%Q).
Proof.
  unfold GeolocationAPI.accuracyLevel.
  repeat match goal with
    | |- context [if ltb ?x ?y then _ else _] =>
        let E := fresh "E" in
        destruct (ltb x y) eqn:E; [apply ltb_lt in E | apply ltb_ge in E]
    end;
  cbn [tier_name];
  repeat apply conj;
  first [ intros H; try discriminate H; try (split; lra); lra
        | intros H; try match type of H with _ /\ _ => destruct H end;
          try reflexivity; exfalso; lra ].
Qed.

(** X3.  The tier and the accuracy message name the same band except on
    the four thresholds they share.  Off 10, 20, 50 and 100 the
    "excellent" note goes with Excellent or Very High, "good" with High,
    "moderate" with Medium, "low" with Low and "very poor" with Very Low;
    on each of the four thresholds the message is that of the band below
    the tier: "excellent" with High at 10, "good" with Medium at 20,
    "moderate" with Low at 50 and "low" with Very Low at 100. *)
Theorem tier_and_message_bands (position : GeolocationPosition) (w : World) :
  exists r,
    GeolocationAPI.analyzeLocationAccuracy position w = (Normal r, w)
    /\ let a := accuracy (coords position) in
       let tier := Analysis.accuracyLevel r in
       (~ (a == 10)%Q -> ~ (a == 20)%Q -> ~ (a == 50)%Q -> ~ (a == 100)%Q ->
        (In Messages.excellent (Analysis.info r)
         <-> tier = tier_name Excellent \/ tier = tier_name VeryHigh)
        /\ (In Messages.good (Analysis.info r) <-> tier = tier_name High)
        /\ (In Messages.moderate (Analysis.info r) <-> tier = tier_name Medium)
        /\ (In Messages.low (Analysis.warnings r) <-> tier = tier_name Low)
        /\ (In Messages.very_poor (Analysis.warnings r)
            <-> tier = tier_name VeryLow))
       /\ ((a == 10)%Q ->
           In Messages.excellent (Analysis.info r) /\ tier = tier_name High)
       /\ ((a == 20)%Q ->
           In Messages.good (Analysis.info r) /\ tier = tier_name Medium)
       /\ ((a == 50)%Q ->
           In Messages.moderate (Analysis.info r) /\ tier = tier_name Low)
       /\ ((a == 100)%Q ->
           In Messages.low (Analysis.warnings r) /\ tier = tier_name VeryLow).
Proof.
  destruct (accuracy_message_ranges position w)
    as (r & Hrun & Hlevel & Hvp & Hlow & Hmod & Hgood & Hexc).
  exists r. split; [exact Hrun|]. cbv zeta. rewrite Hlevel.
  destruct (accuracyLevel_iff (accuracy (coords position)))
    as (TE & TVH & TH & TM & TL & TVL).
  set (a := accuracy (coords position)) in *.
  split; [|split; [|split; [|split]]].
  - intros N10 N20 N50 N100.
    assert (C10 : (a < 10)%Q \/ (10 < a)%Q)
      by (destruct (Q_dec a 10) as [[?|?]|?]; [left|right|contradiction]; assumption).
    assert (C20 : (a < 20)%Q \/ (20 < a)%Q)
      by (destruct (Q_dec a 20) as [[?|?]|?]; [left|right|contradiction]; assumption).
    assert (C50 : (a < 50)%Q \/ (50 < a)%Q)
      by (destruct (Q_dec a 50) as [[?|?]|?]; [left|right|contradiction]; assumption).
    assert (C100 : (a < 100)%Q \/ (100 < a)%Q)
      by (destruct (Q_dec a 100) as [[?|?]|?]; [left|right|contradiction]; assumption).
    rewrite Hexc, Hgood, Hmod, Hlow, Hvp, TE, TVH, TH, TM, TL, TVL.
    destruct (Qlt_le_dec a 5);
      destruct C10, C20, C50, C100; repeat split; intros; try lra;
      try (left; lra); try (right; split; lra);
      repeat match goal with H : _ \/ _ |- _ => destruct H end; lra.
  - intros E. rewrite Hexc, TH. repeat split; lra.
  - intros E. rewrite Hgood, TM. repeat split; lra.
  - intros E. rewrite Hmod, TL. repeat split; lra.
  - intros E. rewrite Hlow, TVL. repeat split; lra.
Qed.

Lemma tier_and_message_bands_witness :
  exists r,
    GeolocationAPI.analyzeLocationAccuracy
      (Fixtures.position_with 100 None None) Fixtures.https_page
    = (Normal r, Fixtures.https_page)
    /\ In Messages.low (Analysis.warnings r)
    /\ Analysis.accuracyLevel r = "Very Low".
Proof.
  destruct (tier_and_message_bands
              (Fixtures.position_with 100 None None) Fixtures.https_page)
    as (r & Hrun & _ & _ & _ & _ & H100).
  exists r. split; [exact Hrun|].
  apply H100. reflexivity.
Defined.

(** X4.  The notes built from the sample: a speed gives the "moving" note
    exactly when it is positive, with the double product of the speed and
    3.6 printed to one decimal; a heading that is not null always gives the
    "heading" note, which reads "NaN" for the heading of a device at rest;
    and a note is never anything but one of the three accuracy notes or one
    of these two. *)
Theorem speed_and_heading_notes (position : GeolocationPosition) (w : World) :
  exists r,
    GeolocationAPI.analyzeLocationAccuracy position w = (Normal r, w)
    /\ (forall s, speed (coords position) = Some s ->
                  (In (Messages.moving s) (Analysis.info r) <-> (0 < s)%Q))
    /\ (forall h, heading (coords position) = Some h ->
                  In (Messages.heading_is h) (Analysis.info r))
    /\ (heading (coords position) = Some NaN ->
        In "Device heading: NaNÂ°" (Analysis.info r))
    /\ (forall m, In m (Analysis.info r) ->
          m = Messages.moderate \/ m = Messages.good \/ m = Messages.excellent
          \/ (exists s, speed (coords position) = Some s /\ (0 < s)%Q
                        /\ m = Messages.moving s)
          \/ (exists h, heading (coords position) = Some h
                        /\ m = Messages.heading_is h)).
Proof.
  destruct (analyze_lists position w) as (r & Hrun & _ & Hi & _).
  exists r. split; [exact Hrun|]. rewrite Hi.
  split; [|split; [|split]].
  - intros s Hs. rewrite Hs. decide_blocks; decide_member.
  - intros h Hh. rewrite Hh.
    decide_blocks; unfold Messages.heading_is; cbn [In]; auto 8.
  - intros Hh. rewrite Hh.
    decide_blocks; cbn [In toFixed1_or_NaN String.append]; auto 8.
  - intros m. decide_blocks; cbn [In]; intros H;
      repeat (destruct H as [H|H]); try contradiction; subst m;
      unfold Messages.moderate, Messages.good, Messages.excellent,
        Messages.moving, Messages.heading_is;
      eauto 12.
Qed.

Lemma speed_and_heading_notes_witness :
  let position :=
    {| coords := {| latitude := 10; longitude := 20; accuracy := 8;
                    altitude := None; altitudeAccuracy := None;
                    heading := Some NaN; speed := Some (7 # 8)%Q |};
       timestamp := 1700000000000 |} in
  exists r,
    GeolocationAPI.analyzeLocationAccuracy position Fixtures.https_page
    = (Normal r, Fixtures.https_page)
    /\ In "Device is moving at 3.1 km/h" (Analysis.info r)
    /\ In "Device heading: NaNÂ°" (Analysis.info r)
    /\ exists r',
         GeolocationAPI.analyzeLocationAccuracy
           (Fixtures.position_with 8 (Some 5%Q) (Some 90%Q))
           Fixtures.https_page
         = (Normal r', Fixtures.https_page)
         /\ In "Device is moving at 18.0 km/h" (Analysis.info r')
         /\ In "Device heading: 90.0Â°" (Analysis.info r').
Proof.
  intros position.
  destruct (speed_and_heading_notes position Fixtures.https_page)
    as (r & Hrun & Hs & _ & Hn & _).
  exists r. split; [exact Hrun|]. split; [|split].
  - assert (E : Messages.moving (7 # 8) = "Device is moving at 3.1 km/h")
      by (vm_compute; reflexivity).
    rewrite <- E. apply (Hs (7 # 8)%Q eq_refl). reflexivity.
  - apply Hn. reflexivity.
  - destruct (speed_and_heading_notes
                (Fixtures.position_with 8 (Some 5%Q) (Some 90%Q))
                Fixtures.https_page)
      as (r' & Hrun' & Hs' & Hh' & _).
    exists r'. split; [exact Hrun'|]. split.
    + assert (E : Messages.moving 5 = "Device is moving at 18.0 km/h")
        by (vm_compute; reflexivity).
      rewrite <- E. apply (Hs' 5%Q eq_refl). reflexivity.
    + apply (Hh' (Finite 90) eq_refl).
Defined.

(** X5.  An analysis is never silent and never long: it carries at least
    one warning or note, at most three warnings, at most three notes and
    at most four recommendations. *)
Theorem analysis_list_bounds (position : GeolocationPosition) (w : World) :
  exists r,
    GeolocationAPI.analyzeLocationAccuracy position w = (Normal r, w)
    /\ (1 <= length (Analysis.warnings r) + length (Analysis.info r))%nat
    /\ (length (Analysis.warnings r) <= 3)%nat
    /\ (length (Analysis.info r) <= 3)%nat
    /\ (length (Analysis.recommendations r) <= 4)%nat.
Proof.
  destruct (analyze_lists position w) as (r & Hrun & Hw & Hi & Hr).
  exists r. split; [exact Hrun|]. rewrite Hw, Hi, Hr.
  decide_blocks; cbn [length]; lia.
Qed.

(* ===================================================================== *)
(** ** More on the multi-sample averager *)

Section Outcomes.

Variables count interval now : Z.

(** With enough fixes the run resolves, whatever follows them. *)
Lemma getReading_resolves (fixes : list GeolocationPosition) :
  forall (readings : list Reading.t) (c : Z) (rest : list response),
    Z.of_nat (length fixes) = Z.max 1 (count - c) ->
    GeolocationAPI.getReading count interval now readings c
      (map Fix fixes ++ rest)
    = {| GeolocationAPI.settled :=
           Resolved
             {| Averaged.lat :=
                  GeolocationAPI.average Reading.lat
                    (readings ++ map GeolocationAPI.toReading fixes);
                Averaged.lng :=
                  GeolocationAPI.average Reading.lng
                    (readings ++ map GeolocationAPI.toReading fixes);
                Averaged.accuracy :=
                  GeolocationAPI.average Reading.accuracy
                    (readings ++ map GeolocationAPI.toReading fixes);
                Averaged.readings :=
                  readings ++ map GeolocationAPI.toReading fixes;
                Averaged.timestamp := now |};
         GeolocationAPI.issued :=
           spaced_queries interval (Nat.pred (length fixes)) |}.
Proof.
  induction fixes as [|p fixes IH]; intros readings c rest Hlen.
  - cbn [length] in Hlen. lia.
  - cbn [map app GeolocationAPI.getReading length Nat.pred].
    cbn [length] in Hlen.
    destruct (Z.geb_spec (c + 1) count) as [Hge|Hlt].
    + destruct fixes; [reflexivity|cbn [length] in Hlen; lia].
    + rewrite IH by lia. rewrite <- app_assoc. cbn [app].
      destruct fixes; [cbn [length] in Hlen; lia|reflexivity].
Qed.

(** Fixes short of the number needed leave the promise pending on one
    more query. *)
Lemma getReading_pending (fixes : list GeolocationPosition) :
  forall (readings : list Reading.t) (c : Z),
    Z.of_nat (length fixes) < Z.max 1 (count - c) ->
    GeolocationAPI.getReading count interval now readings c (map Fix fixes)
    = {| GeolocationAPI.settled := Pending;
         GeolocationAPI.issued := spaced_queries interval (length fixes) |}.
Proof.
  induction fixes as [|p fixes IH]; intros readings c Hlen.
  - reflexivity.
  - cbn [map GeolocationAPI.getReading length spaced_queries].
    cbn [length] in Hlen.
    destruct (Z.geb_spec (c + 1) count) as [Hge|Hlt]; [lia|].
    rewrite IH by lia. reflexivity.
Qed.

(** What each outcome says about the answers of the platform, and the
    shape of the platform calls in every case. *)
Lemma getReading_outcome (script : list response) :
  forall (readings : list Reading.t) (c : Z),
    let run := GeolocationAPI.getReading count interval now readings c script in
    (exists k,
        GeolocationAPI.issued run = spaced_queries interval k
        /\ Z.of_nat k < Z.max 1 (count - c)
        /\ (k <= length script)%nat)
    /\ (GeolocationAPI.settled run = Pending ->
        exists fixes,
          script = map Fix fixes
          /\ Z.of_nat (length fixes) < Z.max 1 (count - c))
    /\ (forall e,
          GeolocationAPI.settled run = Rejected e ->
          exists fixes error rest,
            script = map Fix fixes ++ Fail error :: rest
            /\ e = PositionError error
            /\ Z.of_nat (length fixes) < Z.max 1 (count - c)).
Proof.
  induction script as [|[p|e] script IH]; intros readings c;
    cbn [GeolocationAPI.getReading].
  - cbv zeta. split; [exists 0%nat; repeat split; [lia|reflexivity]|].
    split; [intros _; exists []; split; [reflexivity|cbn; lia]|].
    intros e H. discriminate H.
  - destruct (Z.geb_spec (c + 1) count) as [Hge|Hlt];
      cbv zeta; cbn [GeolocationAPI.settled GeolocationAPI.issued].
    + split; [exists 0%nat; repeat split; [lia|cbn; lia]|].
      split; intros; discriminate.
    + destruct (IH (readings ++ [GeolocationAPI.toReading p]) (c + 1))
        as ((k & Hk & Hlt' & Hle) & Hpend & Hrej).
      split.
      { exists (S k). cbn [spaced_queries length]. rewrite Hk.
        repeat split; lia. }
      split.
      { intros H. destruct (Hpend H) as (fixes & -> & Hlen).
        exists (p :: fixes). cbn [map length]. split; [reflexivity|lia]. }
      { intros e H. destruct (Hrej e H) as (fixes & error & rest & -> & -> & Hlen).
        exists (p :: fixes), error, rest. cbn [map app length].
        repeat split; lia. }
  - cbv zeta. cbn [GeolocationAPI.settled GeolocationAPI.issued].
    split; [exists 0%nat; repeat split; [lia|cbn; lia]|].
    split; [intros H; discriminate H|].
    intros e' [= <-]. exists [], e, script. repeat split. cbn. lia.
Qed.

End Outcomes.

(** X6.  Once the platform has answered the first [max 1 count] queries
    with a fix, the promise resolves with exactly those samples, stamped
    with the time of resolution, after that many queries and one timer
    fewer; what the platform would answer afterwards plays no part. *)
Theorem enough_fixes_resolve
    (count interval : option Z) (now : Z) (fixes : list GeolocationPosition)
    (rest : list response) (w : World) :
  geolocation w <> None ->
  Z.of_nat (length fixes) = Z.max 1 (default 3 count) ->
  exists run r,
    GeolocationAPI.getMultipleReadings count interval now
      (map Fix fixes ++ rest) w = (Normal run, w)
    /\ GeolocationAPI.settled run = Resolved r
    /\ Averaged.readings r = map GeolocationAPI.toReading fixes
    /\ Averaged.timestamp r = now
    /\ GeolocationAPI.issued run
       = spaced_queries (default 2000 interval) (Nat.pred (length fixes))
    /\ queries (GeolocationAPI.issued run) = length fixes
    /\ GeolocationAPI.getMultipleReadings count interval now (map Fix fixes) w
       = (Normal run, w).
Proof.
  intros Hw Hlen.
  unfold GeolocationAPI.getMultipleReadings, bind, get, ret.
  destruct (geolocation w) as [g|]; [|congruence].
  pose proof (getReading_resolves (default 3 count) (default 2000 interval)
                now fixes [] 0 [] ltac:(lia)) as Hnone.
  rewrite app_nil_r in Hnone. rewrite Hnone.
  rewrite getReading_resolves by lia.
  eexists. eexists. split; [reflexivity|].
  cbn [GeolocationAPI.settled GeolocationAPI.issued Averaged.readings
       Averaged.timestamp app].
  rewrite queries_spaced.
  repeat split. destruct fixes; [cbn in Hlen; lia|reflexivity].
Qed.

Lemma enough_fixes_resolve_witness :
  exists run r,
    GeolocationAPI.getMultipleReadings None None 1700000004500
      (map Fix Fixtures.three_fixes
         ++ [Fail (Fixtures.platform_error TIMEOUT)]) Fixtures.https_page
    = (Normal run, Fixtures.https_page)
    /\ GeolocationAPI.settled run = Resolved r
    /\ Averaged.readings r = map GeolocationAPI.toReading Fixtures.three_fixes
    /\ Averaged.timestamp r = 1700000004500
    /\ GeolocationAPI.issued run = spaced_queries 2000 2
    /\ queries (GeolocationAPI.issued run) = 3%nat
    /\ GeolocationAPI.getMultipleReadings None None 1700000004500
         (map Fix Fixtures.three_fixes) Fixtures.https_page
       = (Normal run, Fixtures.https_page).
Proof.
  apply (enough_fixes_resolve None None 1700000004500 Fixtures.three_fixes
           [Fail (Fixtures.platform_error TIMEOUT)] Fixtures.https_page).
  - simpl. discriminate.
  - reflexivity.
Defined.

(** X7.  With the positioning capability present the promise stays
    pending exactly when the platform has answered with fixes only and
    with fewer than [max 1 count] of them; one query more than the fixes
    received has then been made, and no average of the samples so far is
    produced. *)
Theorem pending_iff_too_few_fixes
    (count interval : option Z) (now : Z) (script : list response) (w : World) :
  geolocation w <> None ->
  exists run,
    GeolocationAPI.getMultipleReadings count interval now script w
    = (Normal run, w)
    /\ (GeolocationAPI.settled run = Pending
        <-> exists fixes,
              script = map Fix fixes
              /\ Z.of_nat (length fixes) < Z.max 1 (default 3 count))
    /\ (GeolocationAPI.settled run = Pending ->
        queries (GeolocationAPI.issued run) = S (length script)).
Proof.
  intros Hw.
  unfold GeolocationAPI.getMultipleReadings, bind, get, ret.
  destruct (geolocation w) as [g|]; [|congruence].
  eexists. split; [reflexivity|].
  destruct (getReading_outcome (default 3 count) (default 2000 interval) now
              script [] 0) as (_ & Hpend & _).
  cbv zeta in Hpend. rewrite Z.sub_0_r in Hpend.
  assert (Hconv : forall fixes,
             script = map Fix fixes ->
             Z.of_nat (length fixes) < Z.max 1 (default 3 count) ->
             GeolocationAPI.getReading (default 3 count)
               (default 2000 interval) now [] 0 script
             = {| GeolocationAPI.settled := Pending;
                  GeolocationAPI.issued :=
                    spaced_queries (default 2000 interval) (length script) |}).
  { intros fixes -> Hlen. rewrite getReading_pending by lia.
    rewrite length_map. reflexivity. }
  split; [split|].
  - exact Hpend.
  - intros (fixes & Hs & Hlen). rewrite (Hconv fixes Hs Hlen). reflexivity.
  - intros H. destruct (Hpend H) as (fixes & Hs & Hlen).
    rewrite (Hconv fixes Hs Hlen). cbn [GeolocationAPI.issued].
    apply queries_spaced.
Qed.

Lemma pending_iff_too_few_fixes_witness :
  exists run,
    GeolocationAPI.getMultipleReadings (Some 3) None 1700000004500
      [Fix (Fixtures.fix_at 10 20 5); Fix (Fixtures.fix_at 10 20 7)]
      Fixtures.https_page
    = (Normal run, Fixtures.https_page)
    /\ GeolocationAPI.settled run = Pending
    /\ queries (GeolocationAPI.issued run) = 3%nat.
Proof.
  destruct (pending_iff_too_few_fixes (Some 3) None 1700000004500
              [Fix (Fixtures.fix_at 10 20 5); Fix (Fixtures.fix_at 10 20 7)]
              Fixtures.https_page)
    as (run & Hrun & Hiff & Hq).
  { simpl. discriminate. }
  assert (Hp : GeolocationAPI.settled run = Pending).
  { apply Hiff.
    exists [Fixtures.fix_at 10 20 5; Fixtures.fix_at 10 20 7].
    split; [reflexivity|]. simpl. lia. }
  exists run. split; [exact Hrun|]. split; [exact Hp|].
  exact (Hq Hp).
Defined.

(** The platform calls of a run alternate: a query at every even
    position, a timer at every odd one, and a query last. *)
Lemma spaced_queries_nth (interval : Z) (n : nat) :
  forall j,
    nth_error (spaced_queries interval n) j
    = if (j <? S (2 * n))%nat then
        Some (if Nat.even j
              then GeolocationAPI.GetCurrentPosition GeolocationAPI.oneShotOptions
              else GeolocationAPI.SetTimeout interval)
      else None.
Proof.
  induction n as [|n IH]; intros j.
  - destruct j as [|j]; [reflexivity|]. destruct j; reflexivity.
  - destruct j as [|[|j]]; [reflexivity|reflexivity|].
    cbn [spaced_queries nth_error]. rewrite IH.
    change (Nat.even (S (S j))) with (Nat.even j).
    destruct (Nat.ltb_spec j (S (2 * n)));
      destruct (Nat.ltb_spec (S (S j)) (S (2 * S n))); try reflexivity; lia.
Qed.

(** X8.  Whatever the platform answers, the platform calls of a run are
    queries with the one-shot options, each but the last followed by one
    timer of [interval] milliseconds (2000 when omitted) and nothing else:
    a query at every even position of the trace and a timer at every odd
    one, ending on a query.  The run makes at most [max 1 count] queries
    and at most one more than the answers it received; a browser without
    the capability sees no call at all.  A rejection is either the
    [TypeError] of a browser without the capability, before any query, or
    the error of the first failed query, itself, after which nothing more
    is asked. *)
Theorem run_trace_bounds
    (count interval : option Z) (now : Z) (script : list response) (w : World) :
  exists run,
    GeolocationAPI.getMultipleReadings count interval now script w
    = (Normal run, w)
    /\ match geolocation w with
       | Some _ =>
           exists k,
             GeolocationAPI.issued run
             = spaced_queries (default 2000 interval) k
             /\ Z.of_nat (S k) <= Z.max 1 (default 3 count)
             /\ (k <= length script)%nat
       | None => GeolocationAPI.issued run = []
       end
    /\ (forall j,
          nth_error (GeolocationAPI.issued run) j
          = if (j <? length (GeolocationAPI.issued run))%nat then
              Some (if Nat.even j
                    then GeolocationAPI.GetCurrentPosition
                           GeolocationAPI.oneShotOptions
                    else GeolocationAPI.SetTimeout (default 2000 interval))
            else None)
    /\ Z.of_nat (queries (GeolocationAPI.issued run)) <= Z.max 1 (default 3 count)
    /\ (queries (GeolocationAPI.issued run) <= S (length script))%nat
    /\ length (GeolocationAPI.issued run)
       = (2 * queries (GeolocationAPI.issued run) - 1)%nat
    /\ (forall c, In c (GeolocationAPI.issued run) ->
          c = GeolocationAPI.GetCurrentPosition GeolocationAPI.oneShotOptions
          \/ c = GeolocationAPI.SetTimeout (default 2000 interval))
    /\ (forall e,
          GeolocationAPI.settled run = Rejected e ->
          (geolocation w = None /\ e = TypeError
           /\ GeolocationAPI.issued run = [])
          \/ (exists fixes error rest,
                script = map Fix fixes ++ Fail error :: rest
                /\ e = PositionError error
                /\ GeolocationAPI.issued run
                   = spaced_queries (default 2000 interval) (length fixes)
                /\ queries (GeolocationAPI.issued run) = S (length fixes))).
Proof.
  unfold GeolocationAPI.getMultipleReadings, bind, get, ret.
  destruct (geolocation w) as [g|].
  - eexists. split; [reflexivity|].
    destruct (getReading_outcome (default 3 count) (default 2000 interval) now
                script [] 0) as ((k & Hk & Hlt & Hle) & _ & Hrej).
    cbv zeta in Hrej. rewrite Z.sub_0_r in Hlt, Hrej.
    assert (Hlen : forall n i, length (spaced_queries i n) = S (2 * n)).
    { induction n as [|n IH]; intros i; [reflexivity|].
      cbn [spaced_queries length]. rewrite IH. lia. }
    assert (Hin : forall n i c,
               In c (spaced_queries i n) ->
               c = GeolocationAPI.GetCurrentPosition GeolocationAPI.oneShotOptions
               \/ c = GeolocationAPI.SetTimeout i).
    { induction n as [|n IH]; intros i c; cbn [spaced_queries In].
      - intros [<-|[]]. left. reflexivity.
      - intros [<-|[<-|H]]; [left; reflexivity|right; reflexivity|].
        apply IH. exact H. }
    split; [exists k; split; [exact Hk|split; [lia|exact Hle]]|].
    rewrite Hk, queries_spaced.
    split; [intros j; rewrite Hlen; apply spaced_queries_nth|].
    split; [lia|]. split; [lia|]. split; [rewrite Hlen; lia|].
    split; [apply Hin|].
    intros e He. right.
    destruct (Hrej e He) as (fixes & error & rest & Hs & -> & Hl).
    exists fixes, error, rest. split; [exact Hs|]. split; [reflexivity|].
    subst script. rewrite getReading_fail in Hk by lia.
    cbn [GeolocationAPI.issued] in Hk.
    rewrite <- Hk. split; [reflexivity|].
    rewrite <- (queries_spaced (default 2000 interval) k), <- Hk.
    apply queries_spaced.
  - eexists. split; [reflexivity|].
    cbn [GeolocationAPI.settled GeolocationAPI.issued].
    split; [reflexivity|].
    split; [intros j; destruct j; reflexivity|].
    split; [cbn; lia|]. split; [cbn; lia|]. split; [reflexivity|].
    split; [intros c []|].
    intros e [= <-]. left. repeat split.
Qed.

Lemma run_trace_bounds_witness :
  exists run,
    GeolocationAPI.getMultipleReadings (Some 3) None 1700000004500
      [Fix (Fixtures.fix_at 10 20 5); Fail (Fixtures.platform_error TIMEOUT)]
      Fixtures.https_page
    = (Normal run, Fixtures.https_page)
    /\ GeolocationAPI.settled run
       = Rejected (PositionError (Fixtures.platform_error TIMEOUT))
    /\ GeolocationAPI.issued run
       = [GeolocationAPI.GetCurrentPosition GeolocationAPI.oneShotOptions;
          GeolocationAPI.SetTimeout 2000;
          GeolocationAPI.GetCurrentPosition GeolocationAPI.oneShotOptions]
    /\ exists fixes error rest,
         [Fix (Fixtures.fix_at 10 20 5); Fail (Fixtures.platform_error TIMEOUT)]
         = map Fix fixes ++ Fail error :: rest
         /\ PositionError (Fixtures.platform_error TIMEOUT) = PositionError error
         /\ GeolocationAPI.issued run = spaced_queries 2000 (length fixes)
         /\ queries (GeolocationAPI.issued run) = S (length fixes).
Proof.
  destruct (run_trace_bounds (Some 3) None 1700000004500
              [Fix (Fixtures.fix_at 10 20 5);
               Fail (Fixtures.platform_error TIMEOUT)] Fixtures.https_page)
    as (run & Hrun & _ & _ & _ & _ & _ & _ & Hrej).
  exists run. split; [exact Hrun|].
  assert (Hs : GeolocationAPI.settled run
               = Rejected (PositionError (Fixtures.platform_error TIMEOUT))).
  { injection Hrun as <-. reflexivity. }
  split; [exact Hs|].
  split; [injection Hrun as <-; reflexivity|].
  destruct (Hrej _ Hs) as [(Hnone & _)|H]; [discriminate Hnone|exact H].
Defined.

(* ===================================================================== *)
(** ** The support check and the life of a subscription *)

(** X10.  [checkGeolocationSupport] settles at once and touches nothing.
    It resolves (with [true]) exactly when the browser has the capability
    and the page is served over "https:" or from the host "localhost" or
    "127.0.0.1"; a missing capability is reported first, whatever the
    page; only then is a page that is neither HTTPS nor loopback refused. *)
Theorem support_check_outcome (w : World) :
  exists p,
    GeolocationAPI.checkGeolocationSupport w = (Normal p, w)
    /\ p <> Pending
    /\ (p = Resolved true
        <-> geolocation w <> None
            /\ (protocol (location w) = "https:"
                \/ hostname (location w) = "localhost"
                \/ hostname (location w) = "127.0.0.1"))
    /\ (geolocation w = None ->
        p = Rejected (Error "Geolocation is not supported by this browser"))
    /\ (geolocation w <> None ->
        protocol (location w) <> "https:" ->
        hostname (location w) <> "localhost" ->
        hostname (location w) <> "127.0.0.1" ->
        p = Rejected (Error
              "Geolocation requires HTTPS or localhost. Please use HTTPS or run on localhost.")).
Proof.
  unfold GeolocationAPI.checkGeolocationSupport, bind, get, ret.
  destruct (geolocation w) as [g|].
  - destruct (String.eqb_spec (protocol (location w)) "https:") as [Ep|Ep];
      destruct (String.eqb_spec (hostname (location w)) "localhost") as [El|El];
      destruct (String.eqb_spec (hostname (location w)) "127.0.0.1") as [Ei|Ei];
      cbn [negb andb]; eexists; (split; [reflexivity|]);
      (split; [discriminate|]);
      (split; [split; [intros H;
                       first [discriminate H | split; [discriminate|tauto]]
                      |intros [_ H]; try reflexivity; exfalso; tauto]|]);
      (split; [intros H; discriminate H|]);
      intros _ Hp Hl Hi; try reflexivity; exfalso; tauto.
  - eexists. split; [reflexivity|]. split; [discriminate|].
    split; [split; [intros H; discriminate H|intros [H _]; congruence]|].
    split; [reflexivity|]. intros H. congruence.
Qed.

Lemma support_check_outcome_witness :
  exists p,
    GeolocationAPI.checkGeolocationSupport Fixtures.no_geolocation
    = (Normal p, Fixtures.no_geolocation)
    /\ p = Rejected (Error "Geolocation is not supported by this browser").
Proof.
  destruct (support_check_outcome Fixtures.no_geolocation)
    as (p & Hrun & _ & _ & Hnone & _).
  exists p. split; [exact Hrun|]. apply Hnone. reflexivity.
Defined.

Lemma deliver_unregistered (w : World) (g : Geolocation) (id : Z) (r : response) :
  geolocation w = Some g -> watches g !! id = None ->
  GeolocationAPI.deliver id r w = [].
Proof.
  intros Hg Hid. unfold GeolocationAPI.deliver. rewrite Hg, Hid. reflexivity.
Qed.

(** X11.  With the capability present [watchPosition] calls no callback
    itself and returns the identifier of a new subscription, which it
    registers with high accuracy enabled, a timeout of 30000 ms and a
    maximum age of 10000 ms, next to the subscriptions already there.  From
    then on
    a fix delivered to that identifier reaches the position callback with
    the coordinates and time of the fix, an error reaches the error
    callback, and what is delivered to any other identifier goes where it
    went before. *)
Theorem subscribe_then_deliver (w : World) (g : Geolocation) :
  geolocation w = Some g ->
  exists w',
    GeolocationAPI.watchPosition w
    = (Normal {| GeolocationAPI.handle := Num (nextId g);
                 GeolocationAPI.invoked := [] |}, w')
    /\ location w' = location w
    /\ geolocation w'
       = Some {| watches :=
                   <[nextId g := {| enableHighAccuracy := true;
                                    timeout := 30000;
                                    maximumAge := 10000 |}]> (watches g);
                 nextId := nextId g + 1 |}
    /\ (forall position,
          exists data,
            GeolocationAPI.deliver (nextId g) (Fix position) w'
            = [GeolocationAPI.Callback data]
            /\ LocationData.lat data = latitude (coords position)
            /\ LocationData.lng data = longitude (coords position)
            /\ LocationData.accuracy data = accuracy (coords position)
            /\ LocationData.timestamp data = timestamp position)
    /\ (forall error,
          GeolocationAPI.deliver (nextId g) (Fail error) w'
          = [GeolocationAPI.ErrorCallback
               (GeolocationAPI.watchPosition_errorMessage error)])
    /\ (forall j r,
          j <> nextId g ->
          GeolocationAPI.deliver j r w' = GeolocationAPI.deliver j r w).
Proof.
  intros Hg.
  unfold GeolocationAPI.watchPosition, bind, get, put, ret. rewrite Hg.
  cbn [Platform.watchPosition]. eexists. split; [reflexivity|].
  split; [reflexivity|]. split; [reflexivity|].
  unfold GeolocationAPI.deliver.
  cbn [geolocation set_geolocation watches]. rewrite Hg.
  split; [|split].
  - intros position. rewrite lookup_insert_eq.
    eexists. split; [reflexivity|]. repeat split.
  - intros error. rewrite lookup_insert_eq. reflexivity.
  - intros j r Hj. rewrite lookup_insert_ne by congruence. reflexivity.
Qed.

Lemma subscribe_then_deliver_witness :
  exists w',
    GeolocationAPI.watchPosition Fixtures.https_page
    = (Normal {| GeolocationAPI.handle := Num 1;
                 GeolocationAPI.invoked := [] |}, w')
    /\ (exists g',
          geolocation w' = Some g'
          /\ watches g' !! 1
             = Some {| enableHighAccuracy := true; timeout := 30000;
                       maximumAge := 10000 |}
          /\ nextId g' = 2)
    /\ GeolocationAPI.deliver 1 (Fail (Fixtures.platform_error TIMEOUT)) w'
       = [GeolocationAPI.ErrorCallback "Location request timed out."].
Proof.
  destruct (subscribe_then_deliver Fixtures.https_page Fixtures.fresh_registry
              eq_refl) as (w' & Hrun & _ & Hreg & _ & Herr & _).
  exists w'. split; [exact Hrun|]. split.
  - eexists. split; [exact Hreg|]. split; [|reflexivity].
    cbn [watches Fixtures.fresh_registry nextId]. apply lookup_insert_eq.
  - apply (Herr (Fixtures.platform_error TIMEOUT)).
Defined.

(** X12.  With the capability present [clearWatch] completes normally.
    Called with a non-zero identifier it silences exactly that
    subscription: nothing is delivered to it any more and every other
    subscription delivers as before.  Called with [null], [undefined] or
    the identifier 0 it changes nothing, so a subscription numbered 0
    would stay alive. *)
Theorem clearWatch_silences_one (w : World) (v : value) :
  geolocation w <> None ->
  exists w',
    GeolocationAPI.clearWatch v w = (Normal tt, w')
    /\ location w' = location w
    /\ (forall id r,
          v = Num id -> id <> 0 -> GeolocationAPI.deliver id r w' = [])
    /\ (forall j r,
          v <> Num j ->
          GeolocationAPI.deliver j r w' = GeolocationAPI.deliver j r w)
    /\ (truthy v = false -> w' = w).
Proof.
  intros Hw. destruct (geolocation w) as [g|] eqn:Hg; [|congruence].
  unfold GeolocationAPI.clearWatch, bind, get, put, ret.
  destruct v as [| |id]; cbn [truthy].
  1, 2: exists w; split; [reflexivity|]; split; [reflexivity|];
    split; [intros id r H; discriminate H|]; split; reflexivity.
  destruct (Z.eqb_spec id 0) as [->|Hid]; cbn [negb].
  - exists w. split; [reflexivity|]. split; [reflexivity|].
    split; [intros id r [= <-] H; congruence|]. split; reflexivity.
  - rewrite Hg. eexists. split; [reflexivity|]. split; [reflexivity|].
    unfold GeolocationAPI.deliver.
    cbn [geolocation set_geolocation Platform.clearWatch watches]. rewrite Hg.
    split; [|split].
    + intros id' r [= <-] _. rewrite lookup_delete_eq. reflexivity.
    + intros j r Hj. rewrite lookup_delete_ne by congruence. reflexivity.
    + intros H. discriminate H.
Qed.

Lemma clearWatch_silences_one_witness :
  exists w',
    GeolocationAPI.clearWatch (Num 1) Fixtures.watching_page = (Normal tt, w')
    /\ GeolocationAPI.deliver 1 (Fix (Fixtures.fix_at 10 20 5)) w' = [].
Proof.
  destruct (clearWatch_silences_one Fixtures.watching_page (Num 1))
    as (w' & Hrun & _ & Hgone & _).
  { simpl. discriminate. }
  exists w'. split; [exact Hrun|].
  apply (Hgone 1 _ eq_refl). lia.
Defined.

(* ===================================================================== *)
(** ** The tracking flag *)

(** Without the capability a start fails in place: the error callback has
    run, no identifier is held, and the flag is set all the same. *)
Lemma start_without_capability (s : MapView.State) (w : World) :
  geolocation w = None ->
  truthy (MapView.watchId s) = false ->
  exists s',
    MapView.startAutoTracking s w = (Normal (Undefined, s'), w)
    /\ MapView.watchId s' = Null
    /\ MapView.isTracking s' = true
    /\ MapView.error s' = Some GeolocationAPI.not_supported
    /\ MapView.locationStatus s' = "Auto-tracking failed"
    /\ MapView.selectedTracker s' = MapView.selectedTracker s.
Proof.
  intros Hw Ht. unfold MapView.startAutoTracking. rewrite Ht.
  unfold GeolocationAPI.watchPosition, bind, get, ret. rewrite Hw.
  eexists. split; [reflexivity|]. repeat split.
Qed.

(** X13.  In a browser without the positioning capability the tracking
    flag cannot be taken back: whatever sequence of starts and stops is
    run from a state holding no identifier, no identifier is ever held and
    the browser is left alone, and as soon as the sequence contains a
    start the flag is set, the error reads "Geolocation is not supported
    by this browser" and the status "Auto-tracking failed", however many
    stops follow; without a start nothing changes. *)
Theorem tracking_flag_stuck_without_capability
    (actions : list MapView.action) (s : MapView.State) (w : World) :
  geolocation w = None ->
  MapView.watchId s = Null ->
  exists s',
    MapView.run actions s w = (Normal s', w)
    /\ MapView.watchId s' = Null
    /\ (In MapView.Start actions ->
        MapView.isTracking s' = true
        /\ MapView.error s' = Some "Geolocation is not supported by this browser"
        /\ MapView.locationStatus s' = "Auto-tracking failed")
    /\ (~ In MapView.Start actions -> s' = s).
Proof.
  intros Hw.
  assert (Hkeep : forall actions s,
             MapView.watchId s = Null ->
             MapView.isTracking s = true ->
             MapView.error s = Some GeolocationAPI.not_supported ->
             MapView.locationStatus s = "Auto-tracking failed" ->
             exists s',
               MapView.run actions s w = (Normal s', w)
               /\ MapView.watchId s' = Null
               /\ MapView.isTracking s' = true
               /\ MapView.error s' = Some GeolocationAPI.not_supported
               /\ MapView.locationStatus s' = "Auto-tracking failed").
  { clear actions s. induction actions as [|a actions IH]; intros s Hid Hf He Hs.
    - exists s. repeat split; assumption.
    - cbn [MapView.run]. unfold bind.
      destruct a; cbn [MapView.handler].
      + destruct (start_without_capability s w Hw)
          as (s1 & -> & Hid1 & Hf1 & He1 & Hs1 & _);
          [rewrite Hid; reflexivity|].
        cbn [snd]. apply IH; assumption.
      + rewrite stop_idle by (rewrite Hid; reflexivity).
        cbn [snd]. apply IH; assumption. }
  revert s. induction actions as [|a actions IH]; intros s Hid.
  - exists s. split; [reflexivity|]. split; [exact Hid|].
    split; [intros []|reflexivity].
  - cbn [MapView.run]. unfold bind. destruct a; cbn [MapView.handler].
    + destruct (start_without_capability s w Hw)
        as (s1 & -> & Hid1 & Hf1 & He1 & Hs1 & _);
        [rewrite Hid; reflexivity|].
      cbn [snd].
      destruct (Hkeep actions s1 Hid1 Hf1 He1 Hs1)
        as (s' & Hrun & Hid' & Hf' & He' & Hs').
      exists s'. split; [exact Hrun|]. split; [exact Hid'|].
      split; [intros _; repeat split; assumption|].
      intros H. exfalso. apply H. left. reflexivity.
    + rewrite stop_idle by (rewrite Hid; reflexivity).
      cbn [snd]. destruct (IH s Hid) as (s' & Hrun & Hid' & Hin & Hout).
      exists s'. split; [exact Hrun|]. split; [exact Hid'|]. split.
      * intros [H|H]; [discriminate H|]. apply Hin. exact H.
      * intros H. apply Hout. intros K. apply H. right. exact K.
Qed.

Lemma tracking_flag_stuck_without_capability_witness :
  exists s',
    MapView.run [MapView.Start; MapView.Stop; MapView.Stop] MapView.initial
      Fixtures.no_geolocation = (Normal s', Fixtures.no_geolocation)
    /\ MapView.watchId s' = Null
    /\ MapView.isTracking s' = true.
Proof.
  destruct (tracking_flag_stuck_without_capability
              [MapView.Start; MapView.Stop; MapView.Stop] MapView.initial
              Fixtures.no_geolocation eq_refl eq_refl)
    as (s' & Hrun & Hid & Hin & _).
  exists s'. split; [exact Hrun|]. split; [exact Hid|].
  apply Hin. left. reflexivity.
Defined.

(** With the capability every handler keeps the flag in step with the
    identifier and raises no error. *)
Lemma handler_flag (a : MapView.action) (s : MapView.State) (w : World) :
  session_inv s w ->
  geolocation w <> None ->
  MapView.isTracking s = truthy (MapView.watchId s) ->
  MapView.error s = None ->
  exists s' w',
    MapView.handler a s w = (Normal (Undefined, s'), w')
    /\ session_inv s' w'
    /\ geolocation w' <> None
    /\ MapView.isTracking s' = truthy (MapView.watchId s')
    /\ MapView.error s' = None.
Proof.
  intros Hinv Hcap Hflag Herr.
  destruct (handler_inv a s w Hinv) as (s' & w' & Hstep & Hinv' & Hcap').
  exists s', w'. split; [exact Hstep|]. split; [exact Hinv'|].
  split; [auto|].
  destruct a; cbn [MapView.handler] in Hstep.
  - destruct (truthy (MapView.watchId s)) eqn:Ht.
    + rewrite (start_active s w Ht) in Hstep. injection Hstep as <- <-.
      rewrite Ht. split; assumption.
    + unfold MapView.startAutoTracking in Hstep. rewrite Ht in Hstep.
      unfold GeolocationAPI.watchPosition, bind, get, put, ret in Hstep.
      destruct (geolocation w) as [g|] eqn:Hg; [|congruence].
      destruct (inv_falsy s w g Hinv Ht Hg) as [Hn _].
      cbn [Platform.watchPosition GeolocationAPI.invoked GeolocationAPI.handle
           fold_left] in Hstep.
      injection Hstep as <- _. cbn.
      destruct (Z.eqb_spec (nextId g) 0); [lia|]. split; [reflexivity|exact Herr].
  - destruct (truthy (MapView.watchId s)) eqn:Ht.
    + destruct (inv_truthy s w Hinv Ht) as (g & h & Hg & Hid & _).
      unfold MapView.stopAutoTracking, GeolocationAPI.clearWatch in Hstep.
      rewrite Ht, Hid in Hstep. unfold bind, get, put, ret in Hstep.
      rewrite Hg in Hstep. injection Hstep as <- _. cbn.
      split; [reflexivity|exact Herr].
    + rewrite (stop_idle s w Ht) in Hstep. injection Hstep as <- <-.
      rewrite Ht. split; assumption.
Qed.

(** X14.  With the positioning capability present and identifiers handed
    out from a positive counter, after every sequence of starts and stops
    from the initial state the tracking flag is set exactly when an
    identifier is held, which is exactly when the platform holds a
    subscription, and no error has been raised. *)
Theorem tracking_flag_matches_subscription
    (actions : list MapView.action) (w0 : World) (g0 : Geolocation) :
  geolocation w0 = Some g0 ->
  watches g0 = ∅ ->
  0 < nextId g0 ->
  exists s w,
    MapView.run actions MapView.initial w0 = (Normal s, w)
    /\ MapView.isTracking s = truthy (MapView.watchId s)
    /\ (MapView.isTracking s = true <-> subscriptions w = 1%nat)
    /\ (MapView.isTracking s = false <-> subscriptions w = 0%nat)
    /\ MapView.error s = None.
Proof.
  intros Hg He Hn.
  assert (Hrun : forall actions s w,
             session_inv s w ->
             geolocation w <> None ->
             MapView.isTracking s = truthy (MapView.watchId s) ->
             MapView.error s = None ->
             exists s' w',
               MapView.run actions s w = (Normal s', w')
               /\ session_inv s' w'
               /\ MapView.isTracking s' = truthy (MapView.watchId s')
               /\ MapView.error s' = None).
  { clear. induction actions as [|a actions IH]; intros s w Hinv Hcap Hf Herr.
    - exists s, w. repeat split; assumption.
    - destruct (handler_flag a s w Hinv Hcap Hf Herr)
        as (s1 & w1 & Hstep & Hinv1 & Hcap1 & Hf1 & Herr1).
      destruct (IH s1 w1 Hinv1 Hcap1 Hf1 Herr1) as (s2 & w2 & Hr & H2).
      exists s2, w2. split; [|exact H2].
      cbn [MapView.run]. unfold bind. rewrite Hstep. exact Hr. }
  destruct (Hrun actions MapView.initial w0) as (s & w & Hr & Hinv & Hf & Herr).
  - apply initial_inv. intros g Hg'. rewrite Hg in Hg'. injection Hg' as <-.
    split; assumption.
  - congruence.
  - reflexivity.
  - reflexivity.
  - exists s, w. split; [exact Hr|]. split; [exact Hf|].
    rewrite (inv_subscriptions s w Hinv), Hf.
    destruct (truthy (MapView.watchId s));
      (split; [|split; [|exact Herr]]); split;
      intros H; try reflexivity; discriminate H.
Qed.

Lemma tracking_flag_matches_subscription_witness :
  exists s w,
    MapView.run [MapView.Start; MapView.Stop; MapView.Start] MapView.initial
      Fixtures.https_page = (Normal s, w)
    /\ MapView.isTracking s = truthy (MapView.watchId s)
    /\ (MapView.isTracking s = true <-> subscriptions w = 1%nat)
    /\ (MapView.isTracking s = false <-> subscriptions w = 0%nat)
    /\ MapView.error s = None.
Proof.
  apply (tracking_flag_matches_subscription
           [MapView.Start; MapView.Stop; MapView.Start] Fixtures.https_page
           Fixtures.fresh_registry eq_refl eq_refl).
  simpl. lia.
Defined.

(* ===================================================================== *)
(** ** The location handlers of the component *)

(** X15.  The status line and the analysis label the same accuracy on
    different scales: the status line says "Very High" where the analysis
    says Excellent or Very High, "High" where it says High or Medium,
    "Medium" where it says Low, and "Low" where it says Very Low.  The
    position callback of the tracking writes that label into the status
    when a tracker is selected, and leaves the state alone otherwise; the
    refresh button writes the same label for the accuracy of the fix it
    receives. *)
Theorem status_label_scale (a : number) :
  let level := GeolocationAPI.accuracyLevel a in
  (Panel.accuracyText a = "Very High"
   <-> level = tier_name Excellent \/ level = tier_name VeryHigh)
  /\ (Panel.accuracyText a = "High"
      <-> level = tier_name High \/ level = tier_name Medium)
  /\ (Panel.accuracyText a = "Medium" <-> level = tier_name Low)
  /\ (Panel.accuracyText a = "Low" <-> level = tier_name VeryLow)
  /\ (forall (position : LocationData.t) (s : MapView.State) (id : string),
        LocationData.accuracy position = a ->
        MapView.selectedTracker s = Some id ->
        MapView.locationStatus (MapView.onTrackingPosition position s)
        = ("Auto-tracking active (" ++ Panel.accuracyText a ++ " accuracy: "
             ++ show_int (round a) ++ "m)")%string)
  /\ (forall (position : LocationData.t) (s : MapView.State),
        MapView.selectedTracker s = None ->
        MapView.onTrackingPosition position s = s)
  /\ (forall (engineText : string) (position : GeolocationPosition)
             (s : Panel.State) (w : World),
        accuracy (coords position) = a ->
        geolocation w <> None ->
        exists s',
          Panel.refreshLocation engineText (Some (Fix position)) s w
          = (Normal s', w)
          /\ MapView.locationStatus (Panel.view s')
             = ("Location refreshed (" ++ Panel.accuracyText a ++ " accuracy: "
                  ++ show_int (round a) ++ "m)")%string).
Proof.
  cbv zeta.
  split; [|split; [|split; [|split; [|split; [|split]]]]].
  1-4: unfold Panel.accuracyText, GeolocationAPI.accuracyLevel;
    repeat match goal with
      | |- context [if ltb ?x ?y then _ else _] =>
          let E := fresh "E" in
          destruct (ltb x y) eqn:E; [apply ltb_lt in E | apply ltb_ge in E]
      end;
    try (exfalso; lra); cbn [tier_name];
    (split; intros H;
     [ try discriminate H; auto
     | try reflexivity; try (destruct H as [H|H]); discriminate H ]).
  - intros position s id <- Hsel. unfold MapView.onTrackingPosition.
    rewrite Hsel. reflexivity.
  - intros position s Hsel. unfold MapView.onTrackingPosition.
    rewrite Hsel. reflexivity.
  - intros engineText position s w <- Hw.
    unfold Panel.refreshLocation, GeolocationAPI.getCurrentPosition,
      GeolocationAPI.requestLocationPermission, bind, get, ret.
    destruct (geolocation w) as [g|]; [|congruence].
    eexists. split; reflexivity.
Qed.

Lemma status_label_scale_witness :
  MapView.locationStatus
    (MapView.onTrackingPosition
       (GeolocationAPI.watchPosition_onSuccess (Fixtures.fix_at 10 20 30))
       {| MapView.selectedTracker := Some "tracker_1";
          MapView.watchId := Num 1; MapView.isTracking := true;
          MapView.error := None;
          MapView.locationStatus := "Starting auto-tracking..." |})
  = "Auto-tracking active (High accuracy: 30m)"
  /\ GeolocationAPI.accuracyLevel 30 = "Medium".
Proof.
  destruct (status_label_scale 30) as (_ & _ & _ & _ & Hstatus & _).
  split.
  - etransitivity.
    + apply (Hstatus
               (GeolocationAPI.watchPosition_onSuccess (Fixtures.fix_at 10 20 30))
               {| MapView.selectedTracker := Some "tracker_1";
                  MapView.watchId := Num 1; MapView.isTracking := true;
                  MapView.error := None;
                  MapView.locationStatus := "Starting auto-tracking..." |}
               "tracker_1" eq_refl eq_refl).
    + reflexivity.
  - reflexivity.
Defined.

(** X16.  After three fixes [requestMultipleReadings] shows the averaged
    result and an analysis of the averaged accuracy: the tier is the one of
    the accuracy averaged in double arithmetic over the three samples, which
    need not be the tier of their exact mean, and the status line names it
    with that accuracy rounded to the metre; as the averaged position
    carries no altitude, speed or heading, the analysis has at most one
    note and no altitude warning; the error is cleared. *)
Theorem multiple_readings_show_averaged_analysis
    (engineText : string) (now : Z) (fixes : list GeolocationPosition)
    (rest : list response) (s : Panel.State) (w : World) :
  geolocation w <> None ->
  length fixes = 3%nat ->
  exists s' r a,
    Panel.requestMultipleReadings engineText now (map Fix fixes ++ rest) s w
    = (Normal s', w)
    /\ Panel.currentLocation s' = Some (Panel.Average r)
    /\ Averaged.readings r = map GeolocationAPI.toReading fixes
    /\ Averaged.accuracy r
       = rounded_mean (map (fun p => accuracy (coords p)) fixes)
    /\ Panel.locationAnalysis s' = Some a
    /\ Analysis.accuracyLevel a
       = GeolocationAPI.accuracyLevel (Averaged.accuracy r)
    /\ (length (Analysis.info a) <= 1)%nat
    /\ ~ In Messages.altitude_poor (Analysis.warnings a)
    /\ MapView.error (Panel.view s') = None
    /\ MapView.locationStatus (Panel.view s')
       = ("Multiple readings complete (" ++ Analysis.accuracyLevel a
            ++ " accuracy: " ++ show_int (round (Averaged.accuracy r))
            ++ "m)")%string.
Proof.
  intros Hw Hlen.
  unfold Panel.requestMultipleReadings, GeolocationAPI.getMultipleReadings.
  unfold bind at 1 2. unfold get, ret at 1.
  destruct (geolocation w) as [g|]; [|congruence].
  cbn [default from_option id].
  rewrite getReading_resolves by (rewrite Hlen; reflexivity).
  cbn [GeolocationAPI.settled app].
  set (r := {| Averaged.lat := _; Averaged.lng := _; Averaged.accuracy := _;
               Averaged.readings := _; Averaged.timestamp := _ |}).
  set (position := {| coords := _; timestamp := Averaged.timestamp r |}).
  destruct (analyze_lists position w) as (a & Hrun & Hwarn & Hinfo & _).
  destruct (analyze_completes position w) as (a' & Hrun' & _ & Hlevel).
  assert (a' = a) by congruence. subst a'.
  unfold catch, bind, ret. rewrite Hrun.
  eexists. exists r, a. split; [reflexivity|].
  split; [reflexivity|]. split; [reflexivity|].
  split.
  { subst r. cbn [Averaged.accuracy app].
    rewrite average_rounded_mean, map_map. reflexivity. }
  split; [reflexivity|]. split; [exact Hlevel|].
  split.
  { rewrite Hinfo. subst position. cbn [coords speed heading accuracy].
    decide_blocks; cbn [length]; lia. }
  split.
  { rewrite Hwarn. subst position.
    cbn [coords altitude altitudeAccuracy accuracy].
    decide_blocks; unfold Messages.altitude_poor,
      GeolocationAPI.https_warning; cbn [In];
      intros H; repeat (destruct H as [H|H]); try discriminate H;
      contradiction. }
  split; reflexivity.
Qed.

Lemma multiple_readings_show_averaged_analysis_witness :
  let fixes := [Fixtures.fix_at 10 20 (literal (21 # 10));
                Fixtures.fix_at 10 20 (literal (51 # 10));
                Fixtures.fix_at 10 20 (literal (78 # 10))] in
  exists s' r a,
    Panel.requestMultipleReadings "" 1700000004500 (map Fix fixes ++ [])
      {| Panel.currentLocation := None; Panel.locationAnalysis := None;
         Panel.view := MapView.initial |} Fixtures.https_page
    = (Normal s', Fixtures.https_page)
    /\ Panel.currentLocation s' = Some (Panel.Average r)
    /\ Panel.locationAnalysis s' = Some a
    /\ (Averaged.accuracy r == 5)%Q
    /\ (mean (map (fun p => accuracy (coords p)) fixes) < 5)%Q
    /\ Analysis.accuracyLevel a = "Very High"
    /\ MapView.locationStatus (Panel.view s')
       = "Multiple readings complete (Very High accuracy: 5m)".
Proof.
  intros fixes.
  destruct (multiple_readings_show_averaged_analysis "" 1700000004500
              fixes []
              {| Panel.currentLocation := None; Panel.locationAnalysis := None;
                 Panel.view := MapView.initial |} Fixtures.https_page)
    as (s' & r & a & Hrun & Hcur & _ & Hacc & Han & Hlevel & _ & _ & _ & Hst).
  - simpl. discriminate.
  - reflexivity.
  - exists s', r, a.
    assert (E : (Averaged.accuracy r == 5)%Q)
      by (rewrite Hacc; vm_compute; reflexivity).
    assert (L : Analysis.accuracyLevel a = "Very High").
    { rewrite Hlevel, Hacc. vm_compute. reflexivity. }
    split; [exact Hrun|]. split; [exact Hcur|]. split; [exact Han|].
    split; [exact E|]. split; [vm_compute; reflexivity|].
    split; [exact L|].
    rewrite Hst, L, Hacc. vm_compute. reflexivity.
Defined.

(** X17.  When a query of [requestMultipleReadings] fails before three
    fixes are in, the location and the analysis shown before stay as they
    were, the samples collected so far are shown nowhere, the status reads
    "Multiple readings failed", and the error shown is the message of the
    platform's error itself, not one of the messages the one-shot request
    substitutes for it. *)
Theorem multiple_readings_failure_keeps_location
    (engineText : string) (now : Z) (fixes : list GeolocationPosition)
    (error : GeolocationPositionError) (rest : list response)
    (s : Panel.State) (w : World) :
  geolocation w <> None ->
  (length fixes < 3)%nat ->
  exists s',
    Panel.requestMultipleReadings engineText now
      (map Fix fixes ++ Fail error :: rest) s w = (Normal s', w)
    /\ Panel.currentLocation s' = Panel.currentLocation s
    /\ Panel.locationAnalysis s' = Panel.locationAnalysis s
    /\ MapView.error (Panel.view s') = Some (message error)
    /\ MapView.locationStatus (Panel.view s') = "Multiple readings failed"
    /\ MapView.watchId (Panel.view s') = MapView.watchId (Panel.view s)
    /\ MapView.isTracking (Panel.view s') = MapView.isTracking (Panel.view s).
Proof.
  intros Hw Hlen.
  unfold Panel.requestMultipleReadings, GeolocationAPI.getMultipleReadings,
    bind, get, ret.
  destruct (geolocation w) as [g|]; [|congruence].
  cbn [default from_option id].
  rewrite getReading_fail by lia.
  cbn [GeolocationAPI.settled].
  eexists. split; [reflexivity|]. repeat split.
Qed.

Lemma multiple_readings_failure_keeps_location_witness :
  exists s',
    Panel.requestMultipleReadings "" 1700000004500
      (map Fix [Fixtures.fix_at 10 20 5]
         ++ Fail {| code := TIMEOUT; message := "Timeout expired" |} :: [])
      {| Panel.currentLocation := None; Panel.locationAnalysis := None;
         Panel.view := MapView.initial |} Fixtures.https_page
    = (Normal s', Fixtures.https_page)
    /\ Panel.currentLocation s' = None
    /\ MapView.error (Panel.view s') = Some "Timeout expired".
Proof.
  destruct (multiple_readings_failure_keeps_location "" 1700000004500
              [Fixtures.fix_at 10 20 5]
              {| code := TIMEOUT; message := "Timeout expired" |} []
              {| Panel.currentLocation := None; Panel.locationAnalysis := None;
                 Panel.view := MapView.initial |} Fixtures.https_page)
    as (s' & Hrun & Hcur & _ & Herr & _).
  - simpl. discriminate.
  - simpl. lia.
  - exists s'. repeat split; assumption.
Defined.

(** X18.  [requestLocationPermission] of the component.  On a fix it shows
    the position, an analysis whose tier is the one of the accuracy of the
    fix, and that tier in the status line.  On a failure it keeps the
    position and analysis shown before, shows the one-shot message of the
    error, and sets the status to "Location access denied" whatever the
    failure was, a timeout included; without the capability the error is
    "Geolocation is not supported by this browser" under the same
    status. *)
Theorem permission_request_outcomes
    (engineText : string) (s : Panel.State) (w : World) :
  (geolocation w <> None ->
   forall position,
   exists s' a,
     Panel.requestLocationPermission engineText (Some (Fix position)) s w
     = (Normal s', w)
     /\ Panel.currentLocation s'
        = Some (Panel.Single
                  (GeolocationAPI.requestLocationPermission_onSuccess position))
     /\ Panel.locationAnalysis s' = Some a
     /\ Analysis.accuracyLevel a
        = GeolocationAPI.accuracyLevel (accuracy (coords position))
     /\ MapView.error (Panel.view s') = None
     /\ MapView.locationStatus (Panel.view s')
        = ("Location found (" ++ Analysis.accuracyLevel a ++ " accuracy: "
             ++ show_int (round (accuracy (coords position))) ++ "m)")%string)
  /\ (geolocation w <> None ->
      forall error,
      exists s',
        Panel.requestLocationPermission engineText (Some (Fail error)) s w
        = (Normal s', w)
        /\ Panel.currentLocation s' = Panel.currentLocation s
        /\ Panel.locationAnalysis s' = Panel.locationAnalysis s
        /\ MapView.error (Panel.view s')
           = Some (GeolocationAPI.requestLocationPermission_errorMessage error)
        /\ MapView.locationStatus (Panel.view s') = "Location access denied")
  /\ (geolocation w = None ->
      forall answer,
      exists s',
        Panel.requestLocationPermission engineText answer s w = (Normal s', w)
        /\ Panel.currentLocation s' = Panel.currentLocation s
        /\ Panel.locationAnalysis s' = Panel.locationAnalysis s
        /\ MapView.error (Panel.view s')
           = Some "Geolocation is not supported by this browser"
        /\ MapView.locationStatus (Panel.view s') = "Location access denied").
Proof.
  split; [|split].
  - intros Hw position.
    destruct (analyze_completes
                {| coords := coords position; timestamp := timestamp position |} w)
      as (a & Hrun & _ & Hlevel).
    unfold Panel.requestLocationPermission,
      GeolocationAPI.requestLocationPermission, bind, get, ret.
    destruct (geolocation w) as [g|]; [|congruence].
    unfold catch, Panel.analyzeData.
    cbn [LocationData.coords LocationData.timestamp
         GeolocationAPI.requestLocationPermission_onSuccess].
    rewrite Hrun. eexists. exists a. split; [reflexivity|]. repeat split.
    exact Hlevel.
  - intros Hw error.
    unfold Panel.requestLocationPermission,
      GeolocationAPI.requestLocationPermission, bind, get, ret.
    destruct (geolocation w) as [g|]; [|congruence].
    eexists. split; [reflexivity|]. repeat split.
  - intros Hw answer.
    unfold Panel.requestLocationPermission,
      GeolocationAPI.requestLocationPermission, bind, get, ret.
    rewrite Hw. eexists. split; [reflexivity|]. repeat split.
Qed.

Lemma permission_request_outcomes_witness :
  exists s',
    Panel.requestLocationPermission ""
      (Some (Fail (Fixtures.platform_error TIMEOUT)))
      {| Panel.currentLocation := None; Panel.locationAnalysis := None;
         Panel.view := MapView.initial |} Fixtures.https_page
    = (Normal s', Fixtures.https_page)
    /\ MapView.error (Panel.view s')
       = Some "Location request timed out. Please try again."
    /\ MapView.locationStatus (Panel.view s') = "Location access denied".
Proof.
  destruct (permission_request_outcomes ""
              {| Panel.currentLocation := None; Panel.locationAnalysis := None;
                 Panel.view := MapView.initial |} Fixtures.https_page)
    as (_ & Hfail & _).
  destruct (Hfail ltac:(simpl; discriminate) (Fixtures.platform_error TIMEOUT))
    as (s' & Hrun & _ & _ & Herr & Hstatus).
  exists s'. split; [exact Hrun|]. split; [exact Herr|exact Hstatus].
Defined.

(* ===================================================================== *)
(** ** The tracker list *)

Lemma onUpdate_nth (data : Update.t) (prev : list Trackers.Tracker) (i : nat) :
  nth_error (Trackers.onUpdate data prev) i
  = option_map
      (fun tracker =>
         if String.eqb (Trackers.trackerId tracker) (Update.trackerId data) then
           {| Trackers.trackerId := Trackers.trackerId tracker;
              Trackers.name := Trackers.name tracker;
              Trackers.currentStatus := Trackers.currentStatus tracker;
              Trackers.currentLocation :=
                Some {| Trackers.type := "Point";
                        Trackers.coordinates :=
                          Some [Update.lng data; Update.lat data] |};
              Trackers.lastUpdatedAt := Update.timestamp data |}
         else tracker)
      (nth_error prev i).
Proof. unfold Trackers.onUpdate. apply nth_error_map. Qed.

(** X19.  An "update" event keeps the list of trackers in place: as many
    trackers, the same identifiers, names and statuses in the same order.
    A tracker with another identifier is left exactly as it was; a tracker
    with the identifier of the event gets the time of the event and is
    drawn at the latitude and longitude of the event (the pair is stored
    longitude first and read back latitude first); an event for an
    identifier not in the list changes nothing; and of two events for one
    identifier the later one alone decides. *)
Theorem update_event_effect (data : Update.t) (prev : list Trackers.Tracker) :
  length (Trackers.onUpdate data prev) = length prev
  /\ map Trackers.trackerId (Trackers.onUpdate data prev)
     = map Trackers.trackerId prev
  /\ map Trackers.name (Trackers.onUpdate data prev) = map Trackers.name prev
  /\ map Trackers.currentStatus (Trackers.onUpdate data prev)
     = map Trackers.currentStatus prev
  /\ (forall i tracker,
        nth_error prev i = Some tracker ->
        Trackers.trackerId tracker <> Update.trackerId data ->
        nth_error (Trackers.onUpdate data prev) i = Some tracker)
  /\ (forall i tracker,
        nth_error prev i = Some tracker ->
        Trackers.trackerId tracker = Update.trackerId data ->
        exists tracker',
          nth_error (Trackers.onUpdate data prev) i = Some tracker'
          /\ Trackers.markerPosition tracker'
             = Some (Some (Update.lat data), Some (Update.lng data))
          /\ Trackers.lastUpdatedAt tracker' = Update.timestamp data)
  /\ ((forall tracker, In tracker prev ->
                       Trackers.trackerId tracker <> Update.trackerId data) ->
      Trackers.onUpdate data prev = prev)
  /\ (forall earlier : Update.t,
        Update.trackerId earlier = Update.trackerId data ->
        Trackers.onUpdate data (Trackers.onUpdate earlier prev)
        = Trackers.onUpdate data prev).
Proof.
  split; [apply length_map|].
  split; [|split; [|split]].
  1-3: unfold Trackers.onUpdate; rewrite map_map; apply map_ext;
    intros t; destruct (String.eqb _ _); reflexivity.
  split; [|split; [|split]].
  - intros i tracker Hi Hid. rewrite onUpdate_nth, Hi. cbn [option_map].
    destruct (String.eqb_spec (Trackers.trackerId tracker)
                (Update.trackerId data)); [contradiction|reflexivity].
  - intros i tracker Hi Hid. rewrite onUpdate_nth, Hi. cbn [option_map].
    destruct (String.eqb_spec (Trackers.trackerId tracker)
                (Update.trackerId data)); [|contradiction].
    eexists. split; [reflexivity|]. split; reflexivity.
  - intros H. unfold Trackers.onUpdate.
    rewrite <- (map_id prev) at 2. apply map_ext_in.
    intros t Ht. destruct (String.eqb_spec (Trackers.trackerId t)
                             (Update.trackerId data)) as [E|E];
      [exfalso; exact (H t Ht E)|reflexivity].
  - intros earlier He. unfold Trackers.onUpdate. rewrite map_map.
    apply map_ext. intros t. rewrite He.
    destruct (String.eqb_spec (Trackers.trackerId t) (Update.trackerId data))
      as [E|E]; cbn [Trackers.trackerId Trackers.name Trackers.currentStatus].
    + rewrite E, String.eqb_refl. reflexivity.
    + destruct (String.eqb_spec (Trackers.trackerId t) (Update.trackerId data));
        [contradiction|reflexivity].
Qed.

Lemma update_event_effect_witness :
  let tracker :=
    {| Trackers.trackerId := "tracker_1"; Trackers.name := "Van";
       Trackers.currentStatus := "active"; Trackers.currentLocation := None;
       Trackers.lastUpdatedAt := None |} in
  let data :=
    {| Update.trackerId := "tracker_1"; Update.lat := 10; Update.lng := 20;
       Update.timestamp := Some "2024-01-01T00:00:00Z" |} in
  exists tracker',
    nth_error (Trackers.onUpdate data [tracker]) 0 = Some tracker'
    /\ Trackers.markerPosition tracker' = Some (Some 10%Q, Some 20%Q)
    /\ Trackers.lastUpdatedAt tracker' = Some "2024-01-01T00:00:00Z".
Proof.
  cbv zeta.
  destruct (update_event_effect
              {| Update.trackerId := "tracker_1"; Update.lat := 10;
                 Update.lng := 20;
                 Update.timestamp := Some "2024-01-01T00:00:00Z" |}
              [{| Trackers.trackerId := "tracker_1"; Trackers.name := "Van";
                  Trackers.currentStatus := "active";
                  Trackers.currentLocation := None;
                  Trackers.lastUpdatedAt := None |}])
    as (_ & _ & _ & _ & _ & Hhit & _).
  apply (Hhit 0%nat _ eq_refl eq_refl).
Defined.

Lemma filter_keeps_order {A} (f : A -> bool) (l : list A) :
  sublist (List.filter f l) l.
Proof.
  induction l as [|x l IH]; cbn [List.filter]; [constructor|].
  destruct (f x); constructor; exact IH.
Qed.

Lemma kept_trackers (trackerId : string) (l : list Trackers.Tracker)
    (t : Trackers.Tracker) :
  In t (List.filter
          (fun t => negb (String.eqb (Trackers.trackerId t) trackerId)) l)
  <-> In t l /\ Trackers.trackerId t <> trackerId.
Proof.
  rewrite filter_In.
  destruct (String.eqb_spec (Trackers.trackerId t) trackerId) as [E|E];
    cbn [negb]; split; intros [H1 H2]; split; try assumption;
    try reflexivity; try discriminate H2; contradiction.
Qed.

(** X20.  [handleDeleteTracker].  When the REST call fails nothing changes
    but the error, "Failed to delete tracker".  When it succeeds the
    trackers left are exactly those with another identifier, in their
    order.  If the deleted tracker was not the selected one, selection,
    tracking and browser stay as they were.  If it was, the selection is
    cleared and tracking is stopped: in a state where component and
    platform agree, no identifier is held afterwards, the platform holds
    no subscription, the flag is down if an identifier was held, and no
    error is raised. *)
Theorem delete_tracker_effect
    (trackerId : string) (p : Trackers.Page) (w : World) :
  Trackers.handleDeleteTracker trackerId false p w
  = (Normal {| Trackers.trackers := Trackers.trackers p;
               Trackers.view :=
                 MapView.setError (Some "Failed to delete tracker")
                   (Trackers.view p) |}, w)
  /\ (exists p' w',
        Trackers.handleDeleteTracker trackerId true p w = (Normal p', w')
        /\ (forall t, In t (Trackers.trackers p')
                      <-> In t (Trackers.trackers p)
                          /\ Trackers.trackerId t <> trackerId)
        /\ sublist (Trackers.trackers p') (Trackers.trackers p)
        /\ (MapView.selectedTracker (Trackers.view p) <> Some trackerId ->
            Trackers.view p' = Trackers.view p /\ w' = w)
        /\ (MapView.selectedTracker (Trackers.view p) = Some trackerId ->
            session_inv (Trackers.view p) w ->
            MapView.selectedTracker (Trackers.view p') = None
            /\ truthy (MapView.watchId (Trackers.view p')) = false
            /\ subscriptions w' = 0%nat
            /\ (truthy (MapView.watchId (Trackers.view p)) = true ->
                MapView.isTracking (Trackers.view p') = false)
            /\ MapView.error (Trackers.view p')
               = MapView.error (Trackers.view p))).
Proof.
  split; [reflexivity|].
  unfold Trackers.handleDeleteTracker. cbn [Trackers.view Trackers.trackers].
  destruct (MapView.selectedTracker (Trackers.view p)) as [sel|] eqn:Hsel;
    [destruct (String.eqb_spec sel trackerId) as [->|Hne]|].
  - unfold catch, bind, ret, MapView.stopAutoTracking.
    cbn [Trackers.view Trackers.trackers Trackers.setSelectedTracker
         MapView.watchId].
    destruct (truthy (MapView.watchId (Trackers.view p))) eqn:Ht.
    + unfold GeolocationAPI.clearWatch. rewrite Ht.
      destruct (MapView.watchId (Trackers.view p)) as [| |h] eqn:Hid;
        try discriminate Ht.
      unfold bind, get, put, ret, throw.
      destruct (geolocation w) as [g|] eqn:Hg.
      * eexists. eexists. split; [reflexivity|].
        cbn [Trackers.view Trackers.trackers snd].
        split; [apply kept_trackers|]. split; [apply filter_keeps_order|].
        split; [intros H; congruence|].
        intros _ Hinv. unfold session_inv in Hinv. rewrite Hg, Hid in Hinv.
        destruct Hinv as (_ & _ & Hw).
        cbn. unfold subscriptions.
        cbn [geolocation set_geolocation Platform.clearWatch watches].
        rewrite Hw, delete_singleton_eq.
        repeat split.
      * eexists. eexists. split; [reflexivity|].
        cbn [Trackers.view Trackers.trackers Trackers.deleteFailed].
        split; [apply kept_trackers|]. split; [apply filter_keeps_order|].
        split; [intros H; congruence|].
        intros _ Hinv. unfold session_inv in Hinv. rewrite Hg in Hinv.
        congruence.
    + eexists. eexists. split; [reflexivity|].
      cbn [Trackers.view Trackers.trackers snd].
      split; [apply kept_trackers|]. split; [apply filter_keeps_order|].
      split; [intros H; congruence|].
      intros _ Hinv. cbn. rewrite Ht.
      pose proof (inv_subscriptions _ _ Hinv) as Hsub. rewrite Ht in Hsub.
      repeat split; [exact Hsub|intros H; discriminate H].
  - unfold ret. eexists. eexists. split; [reflexivity|].
    cbn [Trackers.view Trackers.trackers].
    split; [apply kept_trackers|]. split; [apply filter_keeps_order|].
    split; [intros _; split; reflexivity|].
    intros [= H]. contradiction.
  - unfold ret. eexists. eexists. split; [reflexivity|].
    cbn [Trackers.view Trackers.trackers].
    split; [apply kept_trackers|]. split; [apply filter_keeps_order|].
    split; [intros _; split; reflexivity|].
    intros H. discriminate H.
Qed.

Lemma delete_tracker_effect_witness :
  let page :=
    {| Trackers.trackers :=
         [{| Trackers.trackerId := "tracker_1"; Trackers.name := "Van";
             Trackers.currentStatus := "active";
             Trackers.currentLocation := None;
             Trackers.lastUpdatedAt := None |}];
       Trackers.view :=
         {| MapView.selectedTracker := Some "tracker_1";
            MapView.watchId := Num 1; MapView.isTracking := true;
            MapView.error := None;
            MapView.locationStatus := "Starting auto-tracking..." |} |} in
  exists p' w',
    Trackers.handleDeleteTracker "tracker_1" true page Fixtures.watching_page
    = (Normal p', w')
    /\ Trackers.trackers p' = []
    /\ MapView.selectedTracker (Trackers.view p') = None
    /\ subscriptions w' = 0%nat
    /\ MapView.isTracking (Trackers.view p') = false.
Proof.
  cbv zeta.
  destruct (delete_tracker_effect "tracker_1"
              {| Trackers.trackers :=
                   [{| Trackers.trackerId := "tracker_1"; Trackers.name := "Van";
                       Trackers.currentStatus := "active";
                       Trackers.currentLocation := None;
                       Trackers.lastUpdatedAt := None |}];
                 Trackers.view :=
                   {| MapView.selectedTracker := Some "tracker_1";
                      MapView.watchId := Num 1; MapView.isTracking := true;
                      MapView.error := None;
                      MapView.locationStatus := "Starting auto-tracking..." |} |}
              Fixtures.watching_page)
    as (_ & p' & w' & Hrun & _ & _ & _ & Hsel).
  destruct (Hsel eq_refl) as (Hnone & _ & Hsub & Hflag & _).
  { unfold session_inv. cbn. split; [lia|]. split; [lia|reflexivity]. }
  exists p', w'. split; [exact Hrun|].
  split; [injection Hrun as <- _; reflexivity|].
  split; [exact Hnone|]. split; [exact Hsub|].
  apply Hflag. reflexivity.
Defined.
